(** * grub-core/disk/vhd.c: the dynamic-VHD disk backend of GRUB

    A shallow embedding of [vhd.c] (the [vhd] command, its device list and
    the four disk-backend operations) and the properties of it that the
    specification states.

    Conventions of the embedding.
    - C unsigned integers are [Z] values; every operation that can leave
      the range of its C type is followed by its wrap-around ([u32], [u64],
      [ulong]).
    - Memory is a list of bytes; the host is little-endian (x86), which is
      what the unconditional [grub_swap_bytes32] of the source presumes.
    - The GRUB kernel state the module touches ([grub_errno], the open
      files, the allocator) and the module's own statics ([vhd_list],
      [last_id]) form one [world], threaded through a state monad whose
      only abnormal outcome is a machine fault.
    - Every request made to the file layer is appended to [io_log]. *)

From Stdlib Require Import ZArith Lia List.
From Stdlib.Strings Require Import Byte.
From stdpp Require Import base gmap strings list.

Local Open Scope Z_scope.

(** ** Machine integers *)

Definition u32 (x : Z) : Z := x mod 2 ^ 32.
Definition u64 (x : Z) : Z := x mod 2 ^ 64.

(** [unsigned long] and [grub_size_t] on an LP64 target (x86_64). *)
Definition ULONG_BITS : Z := 64.
Definition ulong (x : Z) : Z := x mod 2 ^ ULONG_BITS.

(** ** Bytes in memory *)

Definition byte_val (b : byte) : Z := Z.of_N (Byte.to_N b).

Definition byte_of_Z (x : Z) : byte :=
  match Byte.of_N (Z.to_N (x mod 256)) with
  | Some b => b
  | None => x00
  end.

(** The value of an unsigned integer object stored in [bs] on a
    little-endian host. *)
Fixpoint load_le (bs : list byte) : Z :=
  match bs with
  | [] => 0
  | b :: rest => byte_val b + 256 * load_le rest
  end.

(** The [n] bytes of the object representation of [x]. *)
Fixpoint store_le (n : nat) (x : Z) : list byte :=
  match n with
  | O => []
  | S n' => byte_of_Z x :: store_le n' (x / 256)
  end.

(** The big-endian reading of a byte string, as the VHD format defines
    its fields. *)
Definition be_decode (bs : list byte) : Z := load_le (rev bs).

(** Modelled from the spec: [grub_swap_bytes32] and [grub_swap_bytes64]
    (include/grub/types.h) are not among the sources; "fields wider than
    one byte must be byte-swapped": the bytes of the object are reversed. *)
Definition grub_swap_bytes32 (x : Z) : Z := load_le (rev (store_le 4 x)).
Definition grub_swap_bytes64 (x : Z) : Z := load_le (rev (store_le 8 x)).

(** Bytes [off, off + len) of a buffer. *)
Definition field (off len : nat) (buf : list byte) : list byte :=
  take len (drop off buf).

(** What a buffer holds after [got] has been copied to its start. *)
Definition overwrite (buf got : list byte) : list byte :=
  got ++ drop (length got) buf.

(** ** [struct vhddynheader] *)

Record vhddynheader := {
  cookie : list byte;
  dataoffset : Z;
  BAT : Z;
  headerversion : Z;
  maxentries : Z;
  blocsize : Z;
  checksum : Z;
  parentUID : list byte;
  timestamp : Z;
  reserved1 : Z;
  parentuincodename : list byte;
  parentlocatorentries : list byte;
  reserved2 : list byte
}.

(** The struct as the compiler lays it out over a 1024-byte object: every
    member is naturally aligned, so there is no padding. *)
Definition vhddynheader_at (buf : list byte) : vhddynheader :=
  {| cookie := field 0 8 buf;
     dataoffset := load_le (field 8 8 buf);
     BAT := load_le (field 16 8 buf);
     headerversion := load_le (field 24 4 buf);
     maxentries := load_le (field 28 4 buf);
     blocsize := load_le (field 32 4 buf);
     checksum := load_le (field 36 4 buf);
     parentUID := field 40 16 buf;
     timestamp := load_le (field 56 4 buf);
     reserved1 := load_le (field 60 4 buf);
     parentuincodename := field 64 512 buf;
     parentlocatorentries := field 576 192 buf;
     reserved2 := field 768 256 buf |}.

(** ** The world *)

Inductive grub_err_t :=
  | GRUB_ERR_NONE
  | GRUB_ERR_OUT_OF_MEMORY
  | GRUB_ERR_BAD_ARGUMENT
  | GRUB_ERR_BAD_DEVICE
  | GRUB_ERR_UNKNOWN_DEVICE
  | GRUB_ERR_FILE_NOT_FOUND
  | GRUB_ERR_FILE_READ_ERROR
  | GRUB_ERR_OUT_OF_RANGE
  | GRUB_ERR_NOT_IMPLEMENTED_YET.

#[global] Instance grub_err_t_eq_dec : EqDecision grub_err_t.
Proof. solve_decision. Defined.

(** [grub_file_t]: a handle on an open file. *)
Abbreviation grub_file_t := nat (only parsing).

(** An open file: its contents and its read cursor. *)
Record grub_file := {
  f_data : list byte;
  f_offset : Z
}.

Definition f_size (f : grub_file) : Z := Z.of_nat (length (f_data f)).

(** Requests made to the file layer. *)
Inductive io_event :=
  | EvOpen (name : string) (h : grub_file_t)
  | EvSeek (h : grub_file_t) (off : Z)
  | EvRead (h : grub_file_t) (len : Z)
  | EvClose (h : grub_file_t).

(** [struct grub_vhd]; the [next] pointer is the tail of the list. *)
Record grub_vhd := {
  devname : string;
  file : grub_file_t;
  id : Z
}.

Record world := {
  (* GRUB kernel *)
  grub_errno : grub_err_t;
  open_files : gmap nat grub_file;
  storage : gmap string (list byte);
  short_read_errno : grub_err_t;
  alloc_plan : list bool;
  io_log : list io_event;
  (* statics of vhd.c *)
  vhd_list : list grub_vhd;
  last_id : Z
}.

Definition set_errno (e : grub_err_t) (w : world) : world :=
  {| grub_errno := e; open_files := open_files w; storage := storage w;
     short_read_errno := short_read_errno w; alloc_plan := alloc_plan w;
     io_log := io_log w; vhd_list := vhd_list w; last_id := last_id w |}.

Definition set_open_files (m : gmap nat grub_file) (w : world) : world :=
  {| grub_errno := grub_errno w; open_files := m; storage := storage w;
     short_read_errno := short_read_errno w; alloc_plan := alloc_plan w;
     io_log := io_log w; vhd_list := vhd_list w; last_id := last_id w |}.

Definition set_alloc_plan (p : list bool) (w : world) : world :=
  {| grub_errno := grub_errno w; open_files := open_files w;
     storage := storage w; short_read_errno := short_read_errno w;
     alloc_plan := p; io_log := io_log w; vhd_list := vhd_list w;
     last_id := last_id w |}.

Definition log_io (e : io_event) (w : world) : world :=
  {| grub_errno := grub_errno w; open_files := open_files w;
     storage := storage w; short_read_errno := short_read_errno w;
     alloc_plan := alloc_plan w; io_log := io_log w ++ [e];
     vhd_list := vhd_list w; last_id := last_id w |}.

Definition set_vhd_list (l : list grub_vhd) (w : world) : world :=
  {| grub_errno := grub_errno w; open_files := open_files w;
     storage := storage w; short_read_errno := short_read_errno w;
     alloc_plan := alloc_plan w; io_log := io_log w; vhd_list := l;
     last_id := last_id w |}.

Definition set_last_id (n : Z) (w : world) : world :=
  {| grub_errno := grub_errno w; open_files := open_files w;
     storage := storage w; short_read_errno := short_read_errno w;
     alloc_plan := alloc_plan w; io_log := io_log w;
     vhd_list := vhd_list w; last_id := n |}.

(** ** The monad of the embedding *)

Inductive fault :=
  | DivideByZero
  | BadFileHandle.

Inductive outcome (A : Type) :=
  | Returned (a : A) (w : world)
  | Crashed (f : fault) (w : world).
Arguments Returned {A} a w.
Arguments Crashed {A} f w.

Definition M (A : Type) : Type := world -> outcome A.

Definition ret {A} (a : A) : M A := fun w => Returned a w.

Definition bind {A B} (m : M A) (k : A -> M B) : M B :=
  fun w =>
    match m w with
    | Returned a w' => k a w'
    | Crashed f w' => Crashed f w'
    end.

Definition crash {A} (f : fault) : M A := fun w => Crashed f w.
Definition get {A} (p : world -> A) : M A := fun w => Returned (p w) w.
Definition modify (u : world -> world) : M unit := fun w => Returned tt (u w).

Notation "'do' x <- m ; k" := (bind m (fun x => k))
  (at level 10, x name, m at level 100, k at level 200).
Notation "'do' ' pat <- m ; k" :=
  (bind m (fun x => match x with pat => k end))
  (at level 10, pat pattern, m at level 100, k at level 200).
Notation "'run' m ; k" := (bind m (fun _ => k))
  (at level 10, m at level 100, k at level 200).

(** ** GRUB kernel services used by vhd.c *)

(** Modelled from the spec: [grub_error] (kern/err.c) is not among the
    sources; errors are "synchronous return values": the error is put on
    record in [grub_errno] and handed back. *)
Definition grub_error (n : grub_err_t) : M grub_err_t :=
  run modify (set_errno n);
  ret n.

(** Modelled from the spec: [grub_strcmp] (kern/misc.c) is not among the
    sources; the registry finds a device by "exact name match", so the
    result is 0 exactly on equal strings. *)
Definition grub_strcmp (s1 s2 : string) : Z :=
  if decide (s1 = s2) then 0 else 1.

(** Modelled from the spec: [grub_malloc] (kern/mm.c) is not among the
    sources; "allocating its record" can fail. [alloc_plan] lists the
    outcomes of the coming requests (none listed: the request succeeds); a
    failed request records [GRUB_ERR_OUT_OF_MEMORY]. The result tells
    whether the pointer is non-null. *)
Definition grub_malloc : M bool :=
  do plan <- get alloc_plan;
  match plan with
  | [] => ret true
  | ok :: rest =>
      run modify (set_alloc_plan rest);
      if ok then ret true
      else run modify (set_errno GRUB_ERR_OUT_OF_MEMORY); ret false
  end.

(** Modelled from the spec: [grub_strdup] (kern/misc.c) is not among the
    sources; "duplicating the device name" can fail: it is an allocation. *)
Definition grub_strdup (s : string) : M bool := grub_malloc.

(** Modelled from the spec: [grub_free] (kern/mm.c) is not among the
    sources; releasing memory has no effect the module can observe. *)
Definition grub_free : M unit := ret tt.

(** The file layer (kern/file.c, include/grub/file.h) is not among the
    sources. The spec gives its interface, "open(pathSpecifier) ->
    FileHandle|Error, seek(handle, absoluteByteOffset), read(handle,
    byteCount) -> bytes|Error, close(handle)", read retrieving "arbitrary
    byte ranges by preceding seek calls". Whether the layer records an
    error when it delivers fewer bytes than asked is not settled there:
    [short_read_errno] is what it records then ([GRUB_ERR_NONE]:
    nothing). Using a handle that is not open is a fault. *)
Definition raise_errno (e : grub_err_t) (w : world) : world :=
  match e with
  | GRUB_ERR_NONE => w
  | _ => set_errno e w
  end.

(** Modelled from the spec: [grub_file_open] is not among the sources;
    "open(pathSpecifier) -> FileHandle|Error": a stored file opens under a
    handle not in use, with the cursor at 0; a missing one is an error. *)
Definition grub_file_open (name : string) : M (option grub_file_t) :=
  do disk <- get storage;
  match disk !! name with
  | None => run modify (set_errno GRUB_ERR_FILE_NOT_FOUND); ret None
  | Some bytes =>
      do files <- get open_files;
      let h := fresh (dom files) in
      run modify (log_io (EvOpen name h));
      run modify (set_open_files
                    (<[h := {| f_data := bytes; f_offset := 0 |}]> files));
      ret (Some h)
  end.

(** Modelled from the spec: [grub_file_seek] is not among the sources;
    "seek(handle, absoluteByteOffset)": the cursor moves to the offset; a
    seek past the end of the file is refused and recorded as an error. *)
Definition grub_file_seek (h : grub_file_t) (offset : Z) : M unit :=
  run modify (log_io (EvSeek h offset));
  do files <- get open_files;
  match files !! h with
  | None => crash BadFileHandle
  | Some f =>
      if f_size f <? offset
      then modify (set_errno GRUB_ERR_OUT_OF_RANGE)
      else modify (set_open_files
                     (<[h := {| f_data := f_data f; f_offset := offset |}]>
                        files))
  end.

(** Modelled from the spec: [grub_file_read] is not among the sources;
    "read(handle, byteCount) -> bytes|Error": the bytes at the cursor, at
    most [len] of them, are copied to the start of the buffer and the
    cursor advances past them; a cursor past the end is an error. The
    result is the buffer afterwards. *)
Definition grub_file_read (h : grub_file_t) (buf : list byte) (len : Z)
  : M (list byte) :=
  run modify (log_io (EvRead h len));
  do files <- get open_files;
  match files !! h with
  | None => crash BadFileHandle
  | Some f =>
      if f_size f <? f_offset f
      then run modify (set_errno GRUB_ERR_OUT_OF_RANGE); ret buf
      else
        let n := Z.min len (f_size f - f_offset f) in
        let got := take (Z.to_nat n) (drop (Z.to_nat (f_offset f)) (f_data f)) in
        run modify (set_open_files
                      (<[h := {| f_data := f_data f;
                                 f_offset := f_offset f + Z.of_nat (length got) |}]>
                         files));
        do e <- get short_read_errno;
        run (if Z.of_nat (length got) <? len
             then modify (raise_errno e) else ret tt);
        ret (overwrite buf got)
  end.

(** Modelled from the spec: [grub_file_close] is not among the sources;
    "close(handle)": the handle is no longer open. *)
Definition grub_file_close (h : grub_file_t) : M unit :=
  run modify (log_io (EvClose h));
  do files <- get open_files;
  match files !! h with
  | None => crash BadFileHandle
  | Some _ => modify (set_open_files (delete h files))
  end.

(** Modelled from the spec: [grub_divmod64] (kern/misc.c) is not among the
    sources; "integer division and remainder". Dividing by zero is a
    fault. *)
Definition grub_divmod64 (n d : Z) : M (Z * Z) :=
  if d =? 0 then crash DivideByZero else ret (n / d, n mod d).

(** Modelled from the spec: [GRUB_DISK_SECTOR_BITS] (include/grub/disk.h) is
    not among the sources; a sector is 512 bytes and the data read is "for
    requestedSectorCount << 9 bytes". *)
Definition GRUB_DISK_SECTOR_BITS : Z := 9.

Inductive grub_disk_pull_t :=
  | GRUB_DISK_PULL_NONE
  | GRUB_DISK_PULL_REMOVABLE
  | GRUB_DISK_PULL_RESCAN
  | GRUB_DISK_PULL_MAX.

#[global] Instance grub_disk_pull_t_eq_dec : EqDecision grub_disk_pull_t.
Proof. solve_decision. Defined.

(** The members of [struct grub_disk] the backend touches. [data] is the
    device record [disk->data] points to, as it stands when the disk is
    used. *)
Record grub_disk := {
  max_agglomerate : Z;
  total_sectors : Z;
  disk_id : Z;
  data : grub_vhd
}.

(** ** vhd.c *)

(** The search loops: the first record whose name compares equal. *)
Fixpoint vhd_find (name : string) (l : list grub_vhd) : option grub_vhd :=
  match l with
  | [] => None
  | dev :: next =>
      if grub_strcmp (devname dev) name =? 0 then Some dev
      else vhd_find name next
  end.

(** [*prev = dev->next] at the record the search stopped on. *)
Fixpoint vhd_unlink (name : string) (l : list grub_vhd) : list grub_vhd :=
  match l with
  | [] => []
  | dev :: next =>
      if grub_strcmp (devname dev) name =? 0 then next
      else dev :: vhd_unlink name next
  end.

(** [newdev->file = file] at the record the search stopped on. *)
Fixpoint vhd_set_file (name : string) (f : grub_file_t) (l : list grub_vhd)
  : list grub_vhd :=
  match l with
  | [] => []
  | dev :: next =>
      if grub_strcmp (devname dev) name =? 0
      then {| devname := devname dev; file := f; id := id dev |} :: next
      else dev :: vhd_set_file name f next
  end.

Definition delete_vhd (name : string) : M grub_err_t :=
  do l <- get vhd_list;
  match vhd_find name l with
  | None => grub_error GRUB_ERR_BAD_DEVICE
  | Some dev =>
      run modify (set_vhd_list (vhd_unlink name l));
      run grub_free;
      run grub_file_close (file dev);
      run grub_free;
      ret GRUB_ERR_NONE
  end.

(** The [fail:] label of [grub_cmd_vhd]. *)
Definition grub_cmd_vhd_fail (f : grub_file_t) : M grub_err_t :=
  do e <- get grub_errno;
  run grub_file_close f;
  ret e.

(** [grub_cmd_vhd]: [delete_set] is [state[0].set], [args] the [argc]
    arguments. *)
Definition grub_cmd_vhd (delete_set : bool) (args : list string)
  : M grub_err_t :=
  match args with
  | [] => grub_error GRUB_ERR_BAD_ARGUMENT
  | name :: rest =>
      if delete_set then delete_vhd name
      else
        match rest with
        | [] => grub_error GRUB_ERR_BAD_ARGUMENT
        | filename :: _ =>
            do opened <- grub_file_open filename;
            match opened with
            | None => get grub_errno
            | Some f =>
                do l <- get vhd_list;
                match vhd_find name l with
                | Some newdev =>
                    run grub_file_close (file newdev);
                    run modify (set_vhd_list (vhd_set_file name f l));
                    ret GRUB_ERR_NONE
                | None =>
                    do newdev <- grub_malloc;
                    if negb newdev then grub_cmd_vhd_fail f
                    else
                      do name' <- grub_strdup name;
                      if negb name' then run grub_free; grub_cmd_vhd_fail f
                      else
                        do n <- get last_id;
                        run modify (set_last_id (ulong (n + 1)));
                        run modify (set_vhd_list
                                      ({| devname := name; file := f; id := n |}
                                         :: l));
                        ret GRUB_ERR_NONE
                end
            end
        end
  end.

Section Iterate.
(** [hook] is called with a name and [hook_data]; it returns its [int]
    and what [hook_data] points to afterwards. *)
Context {D : Type}.
Variable hook : string -> D -> Z * D.

Fixpoint iterate_from (d : list grub_vhd) (hook_data : D) : Z * D :=
  match d with
  | [] => (0, hook_data)
  | dev :: next =>
      let (r, hook_data') := hook (devname dev) hook_data in
      if r =? 0 then iterate_from next hook_data' else (1, hook_data')
  end.

Definition grub_vhd_iterate (hook_data : D) (pull : grub_disk_pull_t)
  : M (Z * D) :=
  if decide (pull <> GRUB_DISK_PULL_NONE) then ret (0, hook_data)
  else
    do l <- get vhd_list;
    ret (iterate_from l hook_data).
End Iterate.

Section Open.
(** [GRUB_DISK_CACHE_BITS] and [GRUB_DISK_SIZE_UNKNOWN] (include/grub/disk.h)
    are not among the sources either; their values are left open. *)
Variables GRUB_DISK_CACHE_BITS GRUB_DISK_SIZE_UNKNOWN : Z.

Definition grub_vhd_open (name : string) : M (grub_err_t * option grub_disk) :=
  do l <- get vhd_list;
  match vhd_find name l with
  | None =>
      do e <- grub_error GRUB_ERR_UNKNOWN_DEVICE;
      ret (e, None)
  | Some dev =>
      ret (GRUB_ERR_NONE,
           Some {| max_agglomerate :=
                     Z.shiftl 1 (29 - GRUB_DISK_SECTOR_BITS - GRUB_DISK_CACHE_BITS);
                   total_sectors := GRUB_DISK_SIZE_UNKNOWN;
                   disk_id := id dev;
                   data := dev |})
  end.
End Open.

(** [grub_vhd_read]. [buf] is the caller's buffer; [dynheader0] and
    [blocpos0] are what the two uninitialised locals hold on entry. The
    result is the returned code and the caller's buffer afterwards. *)
Definition grub_vhd_read (disk : grub_disk) (sector size : Z)
    (buf dynheader0 blocpos0 : list byte) : M (grub_err_t * list byte) :=
  let file := file (data disk) in
  run grub_file_seek file 512;
  do dynheader_mem <- grub_file_read file dynheader0 1024;
  let dynheader := vhddynheader_at dynheader_mem in
  let density := u32 (Z.shiftr (grub_swap_bytes32 (blocsize dynheader)) 9) in
  do ' (nb_bloc, offsetbloc) <- grub_divmod64 sector density;
  run grub_file_seek file
        (u64 (grub_swap_bytes64 (BAT dynheader) + u64 (Z.shiftl nb_bloc 2)));
  do blocpos_mem <- grub_file_read file blocpos0 4;
  let blocpos := load_le (field 0 4 blocpos_mem) in
  let finalpos :=
    u64 (Z.shiftl (u64 (u32 (grub_swap_bytes32 blocpos + 1) + offsetbloc)) 9) in
  run grub_file_seek file finalpos;
  do buf' <- grub_file_read file buf
               (ulong (u64 (Z.shiftl size GRUB_DISK_SECTOR_BITS)));
  do e <- get grub_errno;
  if decide (e <> GRUB_ERR_NONE) then ret (e, buf')
  else ret (GRUB_ERR_NONE, buf').

Definition grub_vhd_write (disk : grub_disk) (sector size : Z)
    (buf : list byte) : M grub_err_t :=
  grub_error GRUB_ERR_NOT_IMPLEMENTED_YET.

(** ** Notions used in the statements *)

(** The first two file requests of [grub_vhd_read] (the header decode) and
    its next two (the BAT lookup), on their own. *)
Definition header_read (h : grub_file_t) (dynheader0 : list byte)
  : M (list byte) :=
  run grub_file_seek h 512;
  grub_file_read h dynheader0 1024.

Definition bat_entry_read (h : grub_file_t) (off : Z) (blocpos0 : list byte)
  : M (list byte) :=
  run grub_file_seek h off;
  grub_file_read h blocpos0 4.

(** The fields of the header the read path consumes, read big-endian as
    the format defines them. *)
Definition blockSize (hdr : list byte) : Z := be_decode (field 32 4 hdr).
Definition batOffset (hdr : list byte) : Z := be_decode (field 16 8 hdr).
Definition blockPointer (entry : list byte) : Z := be_decode (field 0 4 entry).

Definition names (w : world) : list string := devname <$> vhd_list w.

(** What the module can be asked to do, and the states that result. *)
Inductive step : world -> world -> Prop :=
  | step_cmd del args e w w' :
      grub_cmd_vhd del args w = Returned e w' -> step w w'
  | step_open cache_bits size_unknown name r w w' :
      grub_vhd_open cache_bits size_unknown name w = Returned r w' -> step w w'
  | step_read disk sector size buf dynheader0 blocpos0 r w w' :
      data disk ∈ vhd_list w ->
      length dynheader0 = 1024%nat -> length blocpos0 = 4%nat ->
      0 <= sector ->
      grub_vhd_read disk sector size buf dynheader0 blocpos0 w = Returned r w' ->
      step w w'
  | step_write disk sector size buf e w w' :
      grub_vhd_write disk sector size buf w = Returned e w' -> step w w'.

(** The module starts with an empty list and the counter at 0. *)
Definition initial (w : world) : Prop :=
  vhd_list w = [] /\ last_id w = 0.

Inductive reachable : world -> Prop :=
  | reachable_initial w : initial w -> reachable w
  | reachable_step w w' : reachable w -> step w w' -> reachable w'.

(** The invariant of the device list. *)
Record registry_ok (w : world) : Prop := {
  ok_names : NoDup (devname <$> vhd_list w);
  ok_files : NoDup (file <$> vhd_list w);
  ok_open : forall dev, dev ∈ vhd_list w -> is_Some (open_files w !! file dev);
  ok_last_id : 0 <= last_id w < 2 ^ ULONG_BITS
}.

(** A run of [vhd] commands and the device creations in it: for each
    command that adds a name not yet in the list and returns success, the
    counter and the list before and after. *)
Record creation := {
  c_counter : Z;
  c_list : list grub_vhd;
  c_counter' : Z;
  c_list' : list grub_vhd
}.

Definition adds_new_name (delete_set : bool) (args : list string) (w : world)
  : bool :=
  match delete_set, args with
  | false, name :: _ :: _ => bool_decide (name ∉ names w)
  | _, _ => false
  end.

Fixpoint creations (cmds : list (bool * list string)) (w : world)
  : list creation :=
  match cmds with
  | [] => []
  | (delete_set, args) :: rest =>
      match grub_cmd_vhd delete_set args w with
      | Returned e w' =>
          (if adds_new_name delete_set args w && bool_decide (e = GRUB_ERR_NONE)
           then [{| c_counter := last_id w; c_list := vhd_list w;
                    c_counter' := last_id w'; c_list' := vhd_list w' |}]
           else [])
          ++ creations rest w'
      | Crashed _ _ => []
      end
  end.

(** The identity given to the device a creation made. *)
Definition c_id (c : creation) : option Z := id <$> head (c_list' c).

(** The identities given out in a run, in order. *)
Definition created_ids (cmds : list (bool * list string)) (w : world)
  : list Z :=
  omap c_id (creations cmds w).

(** [n] times: add ["d"] from the file ["f"], then delete it. *)
Fixpoint add_delete_cycles (n : nat) : list (bool * list string) :=
  match n with
  | O => []
  | S n' => (false, ["d"; "f"]) :: (true, ["d"]) :: add_delete_cycles n'
  end.

(** What seeks and reads of an open file [h] change: they are logged, the
    cursor of [h] may move and an error may be recorded; nothing else. *)
Record file_step (evs : list io_event) (h : grub_file_t) (w w' : world)
  : Prop := {
  fs_log : io_log w' = io_log w ++ evs;
  fs_vhd_list : vhd_list w' = vhd_list w;
  fs_last_id : last_id w' = last_id w;
  fs_storage : storage w' = storage w;
  fs_alloc_plan : alloc_plan w' = alloc_plan w;
  fs_short : short_read_errno w' = short_read_errno w;
  fs_data : f_data <$> (open_files w' !! h) = f_data <$> (open_files w !! h);
  fs_others : forall h', h' <> h -> open_files w' !! h' = open_files w !! h';
  fs_errno : grub_errno w <> GRUB_ERR_NONE -> grub_errno w' <> GRUB_ERR_NONE
}.

(** What the allocator answers to its next request, and the plan left. *)
Definition alloc_outcome (plan : list bool) : bool * list bool :=
  match plan with
  | [] => (true, [])
  | ok :: rest => (ok, rest)
  end.

(** The world an outcome ends in. *)
Definition world_of {A} (o : outcome A) : world :=
  match o with
  | Returned _ w => w
  | Crashed _ w => w
  end.

(** A hook that notes the names it is called on and asks to stop at the
    names [stop_at] selects. *)
Definition recording_hook (stop_at : string -> bool) (name : string)
    (seen : list string) : Z * list string :=
  (if stop_at name then 1 else 0, seen ++ [name]).

(** The four things a command that returns can have done. *)
Inductive cmd_effect (w w' : world) (e : grub_err_t) : Prop :=
  | effect_none :
      vhd_list w' = vhd_list w -> open_files w' = open_files w ->
      last_id w' = last_id w -> e <> GRUB_ERR_NONE ->
      cmd_effect w w' e
  | effect_created name h f :
      name ∉ names w -> open_files w !! h = None ->
      vhd_list w' = {| devname := name; file := h; id := last_id w |} :: vhd_list w ->
      open_files w' = <[h := f]> (open_files w) ->
      last_id w' = ulong (last_id w + 1) -> e = GRUB_ERR_NONE ->
      cmd_effect w w' e
  | effect_replaced name h f old l1 l2 :
      vhd_list w = l1 ++ old :: l2 -> devname old = name ->
      name ∉ (devname <$> l1) -> open_files w !! h = None ->
      vhd_list w' = l1 ++ {| devname := name; file := h; id := id old |} :: l2 ->
      open_files w' = delete (file old) (<[h := f]> (open_files w)) ->
      last_id w' = last_id w -> e = GRUB_ERR_NONE ->
      cmd_effect w w' e
  | effect_deleted name dev l1 l2 :
      vhd_list w = l1 ++ dev :: l2 -> devname dev = name ->
      name ∉ (devname <$> l1) ->
      vhd_list w' = l1 ++ l2 ->
      open_files w' = delete (file dev) (open_files w) ->
      last_id w' = last_id w -> e = GRUB_ERR_NONE ->
      cmd_effect w w' e.

(** The handles that are open and held by no device of the list. *)
Definition unowned (w : world) : gset nat :=
  dom (open_files w) ∖ list_to_set (file <$> vhd_list w).

(** One call of a hook: the name and the hook data it was given and the
    [int] it returned. *)
Record hook_call (D : Type) : Type := {
  call_name : string;
  call_data : D;
  call_ret : Z
}.
Arguments call_name {D}.
Arguments call_data {D}.
Arguments call_ret {D}.

(** A hook wrapped so that its calls are noted, in the order they are
    made. *)
Definition logging_hook {D} (hook : string -> D -> Z * D) (name : string)
    (st : D * list (hook_call D)) : Z * (D * list (hook_call D)) :=
  let (r, d) := hook name (fst st) in
  (r, (d, snd st ++ [{| call_name := name; call_data := fst st;
                        call_ret := r |}])).

(** ** Sample images and worlds *)

Definition zeros (n : nat) : list byte := replicate n x00.
Definition be_bytes (n : nat) (x : Z) : list byte := rev (store_le n x).

(** A dynamic-disk image: 512 bytes of footer copy, the 1024-byte header
    with the BAT offset and the block size, the BAT right after it, then
    [rest]. *)
Definition sample_header (bat blocksize : Z) : list byte :=
  zeros 16 ++ be_bytes 8 bat ++ zeros 8 ++ be_bytes 4 blocksize ++ zeros 988.

Definition sample_image (bat blocksize : Z) (entries : list Z)
    (rest : list byte) : list byte :=
  zeros 512 ++ sample_header bat blocksize
    ++ flat_map (be_bytes 4) entries ++ rest.

Definition empty_world (disk : gmap string (list byte)) (plan : list bool)
    (short : grub_err_t) : world :=
  {| grub_errno := GRUB_ERR_NONE;
     open_files := ∅;
     storage := disk;
     short_read_errno := short;
     alloc_plan := plan;
     io_log := [];
     vhd_list := [];
     last_id := 0 |}.

Definition sample_dev : grub_vhd := {| devname := "hd"; file := 0%nat; id := 0 |}.

(** A disk opened on [sample_dev]; the read path uses nothing but [data]. *)
Definition sample_disk : grub_disk :=
  {| max_agglomerate := 0; total_sectors := 0; disk_id := 0;
     data := sample_dev |}.

(** The world after [vhd hd f] in an empty world whose file ["f"] holds
    [bytes], once the requests [log] have followed, leaving the cursor at
    [off] and [errno] recorded. *)
Definition sample_world_after (bytes : list byte) (short errno : grub_err_t)
    (off : Z) (log : list io_event) : world :=
  {| grub_errno := errno;
     open_files := {[ 0%nat := {| f_data := bytes; f_offset := off |} ]};
     storage := {[ "f" := bytes ]};
     short_read_errno := short;
     alloc_plan := [];
     io_log := EvOpen "f" 0 :: log;
     vhd_list := [sample_dev];
     last_id := 1 |}.

Definition sample_world (bytes : list byte) (short : grub_err_t) : world :=
  sample_world_after bytes short GRUB_ERR_NONE 0 [].

(** Block size 1024 (two sectors to a block), BAT right after the header:
    block 0 at sector 4, block 1 unallocated, block 2 at sector 9. *)
Definition image_small : list byte :=
  sample_image 1536 1024 [4; 0xFFFFFFFF; 9] (zeros 4096).

(** A header whose block size field is 0. *)
Definition image_zero_blocksize : list byte :=
  sample_image 1536 0 [4] (zeros 1024).

(** A header whose BAT offset is 4 short of [2 ^ 64]. *)
Definition image_far_bat : list byte :=
  sample_image (2 ^ 64 - 4) 1024 [] (zeros 1024).

(** The first 1000 bytes of an image whose BAT offset field is 0. *)
Definition image_truncated : list byte :=
  take 1000 (sample_image 0 1024 [] []).

(** An image of 1540 bytes, block size 4096, that ends with its BAT: one
    block, not allocated. *)
Definition image_unallocated : list byte :=
  sample_image 1536 4096 [0xFFFFFFFF] [].

(** An image of 2564 bytes whose only BAT entry names sector 100, past its
    end. *)
Definition image_dangling : list byte :=
  sample_image 1536 1024 [100] (zeros 1024).

(** * Properties *)

(** ** Bytes and byte order *)

Lemma byte_val_range (b : byte) : 0 <= byte_val b < 256.
Proof.
  unfold byte_val. pose proof (Byte.to_N_bounded b) as H.
  split; [apply N2Z.is_nonneg|].
  apply N2Z.inj_le in H. change (Z.of_N 255) with 255 in H. lia.
Qed.

Lemma byte_of_Z_val (b : byte) (x : Z) : byte_of_Z (byte_val b + 256 * x) = b.
Proof.
  unfold byte_of_Z.
  replace ((byte_val b + 256 * x) mod 256) with (byte_val b).
  - unfold byte_val. rewrite N2Z.id, Byte.of_to_N. reflexivity.
  - pose proof (byte_val_range b).
    replace (byte_val b + 256 * x) with (byte_val b + x * 256) by lia.
    rewrite Z.mod_add by lia. symmetry. apply Z.mod_small. lia.
Qed.

Lemma load_le_range (bs : list byte) : 0 <= load_le bs < 256 ^ Z.of_nat (length bs).
Proof.
  induction bs as [|b bs IH]; [simpl; lia|].
  cbn [load_le length]. rewrite Nat2Z.inj_succ, Z.pow_succ_r by lia.
  pose proof (byte_val_range b). lia.
Qed.

Lemma store_load_le (bs : list byte) : store_le (length bs) (load_le bs) = bs.
Proof.
  induction bs as [|b bs IH]; [reflexivity|].
  cbn [load_le length store_le]. rewrite byte_of_Z_val. f_equal.
  replace ((byte_val b + 256 * load_le bs) / 256) with (load_le bs); [exact IH|].
  pose proof (byte_val_range b).
  replace (byte_val b + 256 * load_le bs)
    with (byte_val b + load_le bs * 256) by lia.
  rewrite Z.div_add, (Z.div_small (byte_val b)) by lia. lia.
Qed.

(** Swapping the bytes of a little-endian load gives the big-endian
    reading of the same bytes. *)
Lemma swap32_load (bs : list byte) :
  length bs = 4%nat -> grub_swap_bytes32 (load_le bs) = be_decode bs.
Proof.
  intros H. unfold grub_swap_bytes32, be_decode.
  rewrite <- H, store_load_le. reflexivity.
Qed.

Lemma swap64_load (bs : list byte) :
  length bs = 8%nat -> grub_swap_bytes64 (load_le bs) = be_decode bs.
Proof.
  intros H. unfold grub_swap_bytes64, be_decode.
  rewrite <- H, store_load_le. reflexivity.
Qed.

Lemma be_decode_range (bs : list byte) :
  0 <= be_decode bs < 256 ^ Z.of_nat (length bs).
Proof.
  unfold be_decode. pose proof (load_le_range (rev bs)) as H.
  rewrite length_rev in H. exact H.
Qed.

Lemma length_field (off len : nat) (buf : list byte) :
  (off + len <= length buf)%nat -> length (field off len buf) = len.
Proof. intros H. unfold field. rewrite length_take, length_drop. lia. Qed.

Lemma length_overwrite (buf got : list byte) :
  length (overwrite buf got) = (length buf `max` length got)%nat.
Proof. unfold overwrite. rewrite length_app, length_drop. lia. Qed.

(** ** The monad *)

Lemma bind_Returned {A B} (m : M A) (k : A -> M B) (w w' : world) (a : A) :
  m w = Returned a w' -> bind m k w = k a w'.
Proof. intros H. unfold bind. rewrite H. reflexivity. Qed.

Lemma bind_Crashed {A B} (m : M A) (k : A -> M B) (w w' : world) (f : fault) :
  m w = Crashed f w' -> bind m k w = Crashed f w'.
Proof. intros H. unfold bind. rewrite H. reflexivity. Qed.

Lemma bind_assoc {A B C} (m : M A) (k1 : A -> M B) (k2 : B -> M C) (w : world) :
  bind (bind m k1) k2 w = bind m (fun a => bind (k1 a) k2) w.
Proof. unfold bind. destruct (m w); reflexivity. Qed.

(** ** The file layer *)

Lemma file_step_open ev h w w' h' :
  file_step ev h w w' ->
  is_Some (open_files w !! h') -> is_Some (open_files w' !! h').
Proof.
  intros Hs [f Hf]. destruct (decide (h' = h)) as [->|Hne].
  - pose proof (fs_data _ _ _ _ Hs) as Hd. rewrite Hf in Hd.
    destruct (open_files w' !! h); [eauto|discriminate].
  - rewrite (fs_others _ _ _ _ Hs) by done. eauto.
Qed.

Lemma file_step_trans evs1 evs2 h w w1 w2 :
  file_step evs1 h w w1 -> file_step evs2 h w1 w2 ->
  file_step (evs1 ++ evs2) h w w2.
Proof.
  intros [] []. split; try congruence.
  - rewrite app_assoc. congruence.
  - intros h' Hne. rewrite fs_others1, fs_others0 by done. reflexivity.
  - intros He. apply fs_errno1, fs_errno0, He.
Qed.

Lemma file_step_lookup evs h w w' f :
  file_step evs h w w' -> open_files w !! h = Some f ->
  exists f', open_files w' !! h = Some f' /\ f_data f' = f_data f.
Proof.
  intros Hs Hf. pose proof (fs_data _ _ _ _ Hs) as Hd. rewrite Hf in Hd.
  destruct (open_files w' !! h) as [f'|]; [|discriminate].
  exists f'. split; [reflexivity|]. simpl in Hd. congruence.
Qed.

Lemma raise_errno_sticky e w :
  grub_errno w <> GRUB_ERR_NONE -> grub_errno (raise_errno e w) <> GRUB_ERR_NONE.
Proof. destruct e; simpl; congruence. Qed.

Lemma raise_errno_set e w :
  e <> GRUB_ERR_NONE -> grub_errno (raise_errno e w) = e.
Proof. destruct e; simpl; congruence. Qed.

Lemma grub_file_seek_open h off w f :
  open_files w !! h = Some f ->
  exists w', grub_file_seek h off w = Returned tt w'
    /\ file_step [EvSeek h off] h w w'
    /\ (f_size f < off -> grub_errno w' = GRUB_ERR_OUT_OF_RANGE
                          /\ open_files w' = open_files w)
    /\ (off <= f_size f ->
        grub_errno w' = grub_errno w
        /\ open_files w' !! h = Some {| f_data := f_data f; f_offset := off |}).
Proof.
  intros Hf. unfold grub_file_seek, bind, modify, get. simpl. rewrite Hf.
  destruct (Z.ltb_spec (f_size f) off) as [Hlt|Hge]; simpl;
    eexists; (split; [reflexivity|]); (split; [|split]); try (intros; lia).
  - split; simpl; try done; congruence.
  - intros _. simpl. done.
  - split; simpl; try done.
    + rewrite lookup_insert_eq, Hf. reflexivity.
    + intros h' Hne. apply lookup_insert_ne. done.
  - intros _. simpl. rewrite lookup_insert_eq. done.
Qed.

Lemma grub_file_read_open h buf len w f :
  open_files w !! h = Some f ->
  exists got w', grub_file_read h buf len w = Returned (overwrite buf got) w'
    /\ file_step [EvRead h len] h w w'
    /\ (0 <= len -> Z.of_nat (length got) <= len)
    /\ (length got <= length (f_data f))%nat
    /\ (0 <= f_offset f <= f_size f ->
        got = take (Z.to_nat (Z.min len (f_size f - f_offset f)))
                (drop (Z.to_nat (f_offset f)) (f_data f))
        /\ grub_errno w' =
             grub_errno (if Z.of_nat (length got) <? len
                         then raise_errno (short_read_errno w) w else w)).
Proof.
  intros Hf. unfold grub_file_read, bind, modify, get, ret. simpl. rewrite Hf.
  destruct (Z.ltb_spec (f_size f) (f_offset f)) as [Hlt|Hge]; simpl.
  - exists [], (set_errno GRUB_ERR_OUT_OF_RANGE (log_io (EvRead h len) w)).
    split; [reflexivity|]. split; [|split; [|split]]; simpl;
      try (intros; lia).
    split; simpl; try done; congruence.
  - set (got := take _ _). exists got.
    assert (Hlen : 0 <= len -> Z.of_nat (length got) <= len)
      by (intros; subst got; rewrite length_take; lia).
    assert (Hdata : (length got <= length (f_data f))%nat)
      by (subst got; rewrite length_take, length_drop; lia).
    destruct (Z.ltb_spec (Z.of_nat (length got)) len) as [Hs|Hs]; simpl.
    + destruct (short_read_errno w) eqn:Hsr; simpl;
        (eexists; split; [reflexivity|]; split; [|split; [|split]];
         [ split; simpl; rewrite ?lookup_insert_eq, ?Hf; try done;
           try congruence; intros; apply lookup_insert_ne; done
         | exact Hlen
         | exact Hdata
         | intros _; split; reflexivity ]).
    + eexists; split; [reflexivity|]; split; [|split; [|split]];
        [ split; simpl; rewrite ?lookup_insert_eq, ?Hf; try done;
          intros; apply lookup_insert_ne; done
        | exact Hlen
        | exact Hdata
        | intros _; split; reflexivity ].
Qed.

Lemma bind_Returned_inv {A B} (m : M A) (k : A -> M B) (w w' : world) (b : B) :
  bind m k w = Returned b w' ->
  exists a wa, m w = Returned a wa /\ k a wa = Returned b w'.
Proof. unfold bind. destruct (m w); [eauto|discriminate]. Qed.

(** A seek followed by a read of an open file always returns. *)
Lemma seek_read_open h off buf len w f :
  open_files w !! h = Some f ->
  exists got w', (run grub_file_seek h off; grub_file_read h buf len) w
                 = Returned (overwrite buf got) w'
    /\ file_step [EvSeek h off; EvRead h len] h w w'
    /\ (0 <= len -> Z.of_nat (length got) <= len).
Proof.
  intros Hf.
  destruct (grub_file_seek_open h off w f Hf) as (w1 & Hseek & Hs1 & _).
  destruct (file_step_lookup _ _ _ _ _ Hs1 Hf) as (f1 & Hf1 & _).
  destruct (grub_file_read_open h buf len w1 f1 Hf1)
    as (got & w2 & Hread & Hs2 & Hlen & _ & _).
  exists got, w2. rewrite (bind_Returned _ _ _ _ _ Hseek).
  split; [exact Hread|]. split; [|exact Hlen].
  exact (file_step_trans _ _ _ _ _ _ Hs1 Hs2).
Qed.

Lemma seek_read_inv h off buf len w r w' :
  (run grub_file_seek h off; grub_file_read h buf len) w = Returned r w' ->
  exists got f, r = overwrite buf got
    /\ open_files w !! h = Some f
    /\ file_step [EvSeek h off; EvRead h len] h w w'
    /\ (0 <= len -> Z.of_nat (length got) <= len).
Proof.
  intros H. destruct (open_files w !! h) as [f|] eqn:Hf.
  - destruct (seek_read_open h off buf len w f Hf) as (got & w2 & H2 & Hs & Hl).
    rewrite H2 in H. injection H as <- <-. eauto 10.
  - exfalso. revert H.
    unfold grub_file_seek, bind, modify, get, crash. simpl. rewrite Hf.
    discriminate.
Qed.

(** ** The arithmetic of the read path *)

Lemma density_shift (x : Z) :
  0 <= x < 2 ^ 32 -> u32 (Z.shiftr x 9) = x / 512.
Proof.
  intros H. unfold u32. rewrite Z.shiftr_div_pow2 by lia.
  change (2 ^ 9) with 512. apply Z.mod_small.
  split; [apply Z.div_pos; lia|].
  apply Z.div_lt_upper_bound; lia.
Qed.

Lemma bat_pos_wrap (bat idx : Z) :
  u64 (bat + u64 (Z.shiftl idx 2)) = (bat + idx * 4) mod 2 ^ 64.
Proof.
  unfold u64. rewrite Z.shiftl_mul_pow2 by lia. change (2 ^ 2) with 4.
  apply Zplus_mod_idemp_r.
Qed.

Lemma finalpos_exact (bp sib : Z) :
  0 <= sib < 2 ^ 23 ->
  u64 (Z.shiftl (u64 (u32 (bp + 1) + sib)) 9) = ((bp + 1) mod 2 ^ 32 + sib) * 512.
Proof.
  intros Hs. unfold u64, u32.
  pose proof (Z.mod_pos_bound (bp + 1) (2 ^ 32) ltac:(lia)) as Hm.
  rewrite (Z.mod_small (_ + sib)) by lia.
  rewrite Z.shiftl_mul_pow2 by lia. change (2 ^ 9) with 512.
  apply Z.mod_small. lia.
Qed.

Lemma len_wrap (n : Z) :
  ulong (u64 (Z.shiftl n GRUB_DISK_SECTOR_BITS)) = n * 512 mod 2 ^ 64.
Proof.
  unfold ulong, u64, ULONG_BITS, GRUB_DISK_SECTOR_BITS.
  rewrite Z.shiftl_mul_pow2 by lia. change (2 ^ 9) with 512.
  apply Z.mod_mod. lia.
Qed.

Lemma blockSize_range (hdr : list byte) : 0 <= blockSize hdr < 2 ^ 32.
Proof.
  unfold blockSize. pose proof (be_decode_range (field 32 4 hdr)) as H.
  assert (length (field 32 4 hdr) <= 4)%nat
    by (unfold field; rewrite length_take; lia).
  assert (256 ^ Z.of_nat (length (field 32 4 hdr)) <= 256 ^ 4)
    by (apply Z.pow_le_mono_r; lia).
  change (256 ^ 4) with (2 ^ 32) in *. lia.
Qed.

Lemma header_fields (hdr : list byte) :
  length hdr = 1024%nat ->
  grub_swap_bytes32 (blocsize (vhddynheader_at hdr)) = blockSize hdr
  /\ grub_swap_bytes64 (BAT (vhddynheader_at hdr)) = batOffset hdr.
Proof.
  intros H. cbn [vhddynheader_at blocsize BAT]. split.
  - apply swap32_load, length_field. lia.
  - apply swap64_load, length_field. lia.
Qed.

Lemma bind_ret {A B} (a : A) (k : A -> M B) (w : world) :
  bind (ret a) k w = k a w.
Proof. reflexivity. Qed.

(** ** The read path, step by step *)

(** Once the header decode has left [hdr] in the header buffer, the rest
    of [grub_vhd_read] is determined: a fault when the density is 0, and
    otherwise the BAT lookup, the seek to the translated offset and one
    read, after which [grub_errno] is handed back. *)
Lemma grub_vhd_read_run disk s n buf hdr0 bp0 w hdr w1 :
  header_read (file (data disk)) hdr0 w = Returned hdr w1 ->
  length hdr0 = 1024%nat -> length bp0 = 4%nat ->
  0 <= s ->
  let h := file (data disk) in
  let density := blockSize hdr / 512 in
  length hdr = 1024%nat
  /\ file_step [EvSeek h 512; EvRead h 1024] h w w1
  /\ (density = 0 ->
      grub_vhd_read disk s n buf hdr0 bp0 w = Crashed DivideByZero w1)
  /\ (density <> 0 ->
      exists bpm w2 e buf' w',
        bat_entry_read h ((batOffset hdr + s / density * 4) mod 2 ^ 64) bp0 w1
          = Returned bpm w2
        /\ length bpm = 4%nat
        /\ file_step [EvSeek h ((batOffset hdr + s / density * 4) mod 2 ^ 64);
                      EvRead h 4] h w1 w2
        /\ grub_vhd_read disk s n buf hdr0 bp0 w = Returned (e, buf') w'
        /\ e = grub_errno w'
        /\ file_step
             [EvSeek h (((blockPointer bpm + 1) mod 2 ^ 32 + s mod density) * 512);
              EvRead h (n * 512 mod 2 ^ 64)] h w2 w').
Proof.
  intros Hh Hl0 Hlb Hs h density.
  destruct (seek_read_inv _ _ _ _ _ _ _ Hh) as (got & f & Hhdr & Hf & Hs1 & Hlen).
  assert (Hl : length hdr = 1024%nat).
  { subst hdr. rewrite length_overwrite. specialize (Hlen ltac:(lia)). lia. }
  destruct (header_fields hdr Hl) as [E1 E2].
  pose proof (blockSize_range hdr) as Hbs.
  assert (Hd : 0 <= density < 2 ^ 23).
  { subst density. split; [apply Z.div_pos; lia|].
    apply Z.div_lt_upper_bound; lia. }
  destruct (bind_Returned_inv _ _ _ _ _ Hh) as ([] & wa & Hseek & Hread).
  assert (Hgo : forall K : list byte -> M (grub_err_t * list byte),
             bind (grub_file_seek h 512)
               (fun _ => bind (grub_file_read h hdr0 1024) K) w = K hdr w1).
  { intros K. rewrite (bind_Returned _ _ _ _ _ Hseek).
    apply (bind_Returned _ _ _ _ _ Hread). }
  split; [exact Hl|]. split; [exact Hs1|].
  unfold grub_vhd_read. cbv zeta. fold h. rewrite Hgo. clear Hgo.
  rewrite E1, E2, density_shift by exact Hbs. fold density.
  unfold grub_divmod64. split.
  - intros ->. reflexivity.
  - intros Hnz. destruct (Z.eqb_spec density 0) as [|_]; [contradiction|].
    rewrite bind_ret, bat_pos_wrap.
    destruct (file_step_lookup _ _ _ _ _ Hs1 Hf) as (f1 & Hf1 & _).
    destruct (seek_read_open h ((batOffset hdr + s / density * 4) mod 2 ^ 64)
                bp0 4 w1 f1 Hf1) as (got2 & w2 & Hbat & Hs2 & Hlen2).
    destruct (bind_Returned_inv _ _ _ _ _ Hbat) as ([] & wb & Hseek2 & Hread2).
    rewrite (bind_Returned _ _ _ _ _ Hseek2), (bind_Returned _ _ _ _ _ Hread2).
    set (bpm := overwrite bp0 got2) in *.
    assert (Hlb' : length bpm = 4%nat).
    { subst bpm. rewrite length_overwrite. specialize (Hlen2 ltac:(lia)). lia. }
    assert (E3 : grub_swap_bytes32 (load_le (field 0 4 bpm)) = blockPointer bpm).
    { apply swap32_load, length_field. lia. }
    rewrite E3, finalpos_exact, len_wrap
      by (pose proof (Z.mod_pos_bound s density ltac:(lia)); lia).
    destruct (file_step_lookup _ _ _ _ _ Hs2 Hf1) as (f2 & Hf2 & _).
    destruct (seek_read_open h
                (((blockPointer bpm + 1) mod 2 ^ 32 + s mod density) * 512)
                buf (n * 512 mod 2 ^ 64) w2 f2 Hf2)
      as (got3 & w3 & Hfin & Hs3 & _).
    destruct (bind_Returned_inv _ _ _ _ _ Hfin) as ([] & wc & Hseek3 & Hread3).
    rewrite (bind_Returned _ _ _ _ _ Hseek3), (bind_Returned _ _ _ _ _ Hread3).
    exists bpm, w2, (grub_errno w3), (overwrite buf got3), w3.
    split; [exact Hbat|]. split; [exact Hlb'|]. split; [exact Hs2|].
    split; [|split; [reflexivity|exact Hs3]].
    unfold bind, get, ret. destruct (decide (grub_errno w3 <> GRUB_ERR_NONE)) as [|He].
    + reflexivity.
    + apply dec_stable in He. rewrite He. reflexivity.
Qed.

(** Unfolding the monad and the field updates of the world. *)
Ltac run_world :=
  cbv [bind get modify ret crash set_errno set_open_files set_alloc_plan
       log_io set_vhd_list set_last_id negb andb fst snd];
  cbn [grub_errno open_files storage short_read_errno alloc_plan io_log
       vhd_list last_id].

(** ** The device list *)

Lemma grub_strcmp_eq (s1 s2 : string) : grub_strcmp s1 s2 = 0 <-> s1 = s2.
Proof. unfold grub_strcmp. destruct (decide (s1 = s2)); split; (done || lia). Qed.

Lemma vhd_find_None (name : string) (l : list grub_vhd) :
  vhd_find name l = None <-> name ∉ (devname <$> l).
Proof.
  induction l as [|dev l IH]; simpl.
  - split; [intros _; apply not_elem_of_nil|done].
  - rewrite not_elem_of_cons.
    destruct (Z.eqb_spec (grub_strcmp (devname dev) name) 0) as [E|E];
      rewrite grub_strcmp_eq in E.
    + split; [discriminate|]. intros [Hne _]. congruence.
    + rewrite IH. split; [intros H; split; [congruence|exact H]|tauto].
Qed.

(** Where the search stops: the list up to the match holds no such name;
    unlinking drops the match and the in-place update changes only its
    [file]. *)
Lemma vhd_find_Some (name : string) (l : list grub_vhd) (dev : grub_vhd) :
  vhd_find name l = Some dev ->
  exists l1 l2,
    l = l1 ++ dev :: l2
    /\ devname dev = name
    /\ (name ∉ (devname <$> l1))
    /\ vhd_unlink name l = l1 ++ l2
    /\ forall f, vhd_set_file name f l
                 = l1 ++ {| devname := name; file := f; id := id dev |} :: l2.
Proof.
  induction l as [|d l IH]; simpl; [discriminate|].
  destruct (Z.eqb_spec (grub_strcmp (devname d) name) 0) as [E|E];
    rewrite grub_strcmp_eq in E.
  - intros [= ->]. exists [], l. simpl. rewrite E.
    repeat split; try done. apply not_elem_of_nil.
  - intros H. destruct (IH H) as (l1 & l2 & -> & Hn & Hnot & Hu & Hs).
    exists (d :: l1), l2. simpl. rewrite Hu. repeat split; try done.
    + rewrite not_elem_of_cons. split; [congruence|exact Hnot].
    + intros f. rewrite Hs. reflexivity.
Qed.

Lemma vhd_find_elem (name : string) (l : list grub_vhd) :
  name ∈ (devname <$> l) -> exists dev, vhd_find name l = Some dev.
Proof.
  intros H. destruct (vhd_find name l) as [dev|] eqn:E; [eauto|].
  apply vhd_find_None in E. contradiction.
Qed.

(** ** The [vhd] command, case by case *)

Lemma grub_cmd_vhd_no_name del w :
  grub_cmd_vhd del [] w
  = Returned GRUB_ERR_BAD_ARGUMENT (set_errno GRUB_ERR_BAD_ARGUMENT w).
Proof. reflexivity. Qed.

Lemma grub_cmd_vhd_no_file name w :
  grub_cmd_vhd false [name] w
  = Returned GRUB_ERR_BAD_ARGUMENT (set_errno GRUB_ERR_BAD_ARGUMENT w).
Proof. reflexivity. Qed.

Lemma grub_cmd_vhd_delete name rest w :
  grub_cmd_vhd true (name :: rest) w = delete_vhd name w.
Proof. reflexivity. Qed.

Lemma delete_vhd_missing name w :
  name ∉ names w ->
  delete_vhd name w
  = Returned GRUB_ERR_BAD_DEVICE (set_errno GRUB_ERR_BAD_DEVICE w).
Proof.
  intros H. apply vhd_find_None in H.
  unfold delete_vhd, bind, get. rewrite H. reflexivity.
Qed.

Lemma delete_vhd_found name w dev :
  vhd_find name (vhd_list w) = Some dev ->
  is_Some (open_files w !! file dev) ->
  delete_vhd name w
  = Returned GRUB_ERR_NONE
      (set_open_files (delete (file dev) (open_files w))
         (log_io (EvClose (file dev))
            (set_vhd_list (vhd_unlink name (vhd_list w)) w))).
Proof.
  intros H [f Hf]. unfold delete_vhd, bind, get. rewrite H.
  unfold grub_file_close, bind, modify, get, grub_free, ret. simpl.
  rewrite Hf. reflexivity.
Qed.

Lemma grub_cmd_vhd_open_failed name path rest w :
  storage w !! path = None ->
  grub_cmd_vhd false (name :: path :: rest) w
  = Returned GRUB_ERR_FILE_NOT_FOUND (set_errno GRUB_ERR_FILE_NOT_FOUND w).
Proof.
  intros H. unfold grub_cmd_vhd, grub_file_open, bind, get, modify, ret.
  simpl. rewrite H. reflexivity.
Qed.

(** The handle [grub_file_open] hands out is not one of the open ones. *)
Lemma fresh_handle_closed (w : world) :
  open_files w !! fresh (dom (open_files w)) = None.
Proof. apply not_elem_of_dom, is_fresh. Qed.

Lemma grub_cmd_vhd_replace name path rest w old bytes :
  vhd_find name (vhd_list w) = Some old ->
  storage w !! path = Some bytes ->
  is_Some (open_files w !! file old) ->
  let h := fresh (dom (open_files w)) in
  grub_cmd_vhd false (name :: path :: rest) w
  = Returned GRUB_ERR_NONE
      {| grub_errno := grub_errno w;
         open_files :=
           delete (file old)
             (<[h := {| f_data := bytes; f_offset := 0 |}]> (open_files w));
         storage := storage w;
         short_read_errno := short_read_errno w;
         alloc_plan := alloc_plan w;
         io_log := io_log w ++ [EvOpen path h; EvClose (file old)];
         vhd_list := vhd_set_file name h (vhd_list w);
         last_id := last_id w |}.
Proof.
  intros Hfind Hst [fo Hfo] h.
  assert (Hne : h <> file old).
  { intros E. pose proof (fresh_handle_closed w) as Hc. fold h in Hc.
    rewrite E, Hfo in Hc. discriminate. }
  unfold grub_cmd_vhd, grub_file_open, grub_file_close. run_world.
  rewrite Hst. run_world. rewrite Hfind. run_world. fold h.
  rewrite lookup_insert_ne, Hfo by exact Hne.
  rewrite <- app_assoc. reflexivity.
Qed.

Lemma grub_cmd_vhd_create name path rest w bytes :
  name ∉ names w ->
  storage w !! path = Some bytes ->
  let h := fresh (dom (open_files w)) in
  let r1 := alloc_outcome (alloc_plan w) in
  let r2 := alloc_outcome (snd r1) in
  grub_cmd_vhd false (name :: path :: rest) w
  = if fst r1 && fst r2
    then Returned GRUB_ERR_NONE
           {| grub_errno := grub_errno w;
              open_files :=
                <[h := {| f_data := bytes; f_offset := 0 |}]> (open_files w);
              storage := storage w;
              short_read_errno := short_read_errno w;
              alloc_plan := snd r2;
              io_log := io_log w ++ [EvOpen path h];
              vhd_list :=
                {| devname := name; file := h; id := last_id w |} :: vhd_list w;
              last_id := ulong (last_id w + 1) |}
    else Returned GRUB_ERR_OUT_OF_MEMORY
           {| grub_errno := GRUB_ERR_OUT_OF_MEMORY;
              open_files := open_files w;
              storage := storage w;
              short_read_errno := short_read_errno w;
              alloc_plan := if fst r1 then snd r2 else snd r1;
              io_log := io_log w ++ [EvOpen path h; EvClose h];
              vhd_list := vhd_list w;
              last_id := last_id w |}.
Proof.
  intros Hnew Hst h r1 r2. apply vhd_find_None in Hnew.
  pose proof (fresh_handle_closed w) as Hc. fold h in Hc. subst r1 r2.
  unfold grub_cmd_vhd, grub_file_open, grub_strdup, grub_malloc,
    grub_cmd_vhd_fail, grub_file_close, grub_free.
  run_world. rewrite Hst. run_world. rewrite Hnew. fold h.
  destruct (alloc_plan w) as [|[] [|[] p]]; cbv [alloc_outcome]; run_world;
    rewrite ?lookup_insert_eq;
    rewrite ?delete_insert_id by exact Hc; rewrite <- ?app_assoc;
    reflexivity.
Qed.

Lemma delete_vhd_result name w e w' :
  delete_vhd name w = Returned e w' ->
  vhd_list w' = vhd_unlink name (vhd_list w) /\ last_id w' = last_id w.
Proof.
  unfold delete_vhd, grub_error, grub_file_close, grub_free. run_world.
  destruct (vhd_find name (vhd_list w)) as [dev|] eqn:Hfind; run_world.
  - destruct (open_files w !! file dev); run_world; [|discriminate].
    intros [= _ <-]. split; reflexivity.
  - intros [= _ <-]. split; [|reflexivity]. cbn [vhd_list].
    clear -Hfind. induction (vhd_list w) as [|d l IH]; simpl in *; [done|].
    destruct (grub_strcmp (devname d) name =? 0); [discriminate|].
    rewrite <- IH by done. reflexivity.
Qed.

(** A successful add of a new name prepends a record that carries the
    counter's value, and steps the counter. *)
Lemma grub_cmd_vhd_added name path rest w w' :
  name ∉ names w ->
  grub_cmd_vhd false (name :: path :: rest) w = Returned GRUB_ERR_NONE w' ->
  exists h,
    vhd_list w' = {| devname := name; file := h; id := last_id w |} :: vhd_list w
    /\ last_id w' = ulong (last_id w + 1).
Proof.
  intros Hnew H. destruct (storage w !! path) as [bytes|] eqn:Hst.
  - rewrite (grub_cmd_vhd_create _ _ _ _ _ Hnew Hst) in H.
    destruct (_ && _); [|discriminate]. injection H as <-. eauto.
  - rewrite grub_cmd_vhd_open_failed in H by done. discriminate.
Qed.

(** Every command either creates a device, stepping the counter, or leaves
    the counter alone. *)
Lemma grub_cmd_vhd_counter del args w e w' :
  grub_cmd_vhd del args w = Returned e w' ->
  if adds_new_name del args w && bool_decide (e = GRUB_ERR_NONE)
  then exists dev, vhd_list w' = dev :: vhd_list w
                   /\ id dev = last_id w
                   /\ last_id w' = ulong (last_id w + 1)
  else last_id w' = last_id w.
Proof.
  intros H. destruct args as [|name rest].
  { rewrite grub_cmd_vhd_no_name in H. injection H as _ <-.
    destruct del; reflexivity. }
  destruct del.
  { rewrite grub_cmd_vhd_delete in H. apply (delete_vhd_result _ _ _ _ H). }
  destruct rest as [|path rest].
  { rewrite grub_cmd_vhd_no_file in H. injection H as _ <-. reflexivity. }
  cbn [adds_new_name].
  destruct (storage w !! path) as [bytes|] eqn:Hst.
  2:{ rewrite grub_cmd_vhd_open_failed in H by done. injection H as <- <-.
      rewrite andb_false_r. reflexivity. }
  destruct (vhd_find name (vhd_list w)) as [old|] eqn:Hfind.
  - assert (Hin : name ∈ names w).
    { destruct (vhd_find_Some _ _ _ Hfind) as (l1 & l2 & Hl & Hn & _).
      unfold names. rewrite Hl, fmap_app, fmap_cons, Hn, elem_of_app, elem_of_cons.
      tauto. }
    rewrite bool_decide_eq_false_2 by tauto. cbn [andb].
    revert H. unfold grub_cmd_vhd, grub_file_open, grub_file_close. run_world.
    rewrite Hst. run_world. rewrite Hfind. run_world.
    destruct (_ !! file old); run_world; [|discriminate].
    intros [= _ <-]. reflexivity.
  - apply vhd_find_None in Hfind.
    rewrite (grub_cmd_vhd_create _ _ _ _ _ Hfind Hst) in H.
    rewrite bool_decide_eq_true_2 by exact Hfind. cbn [andb].
    destruct (_ && _); injection H as <- <-.
    + rewrite bool_decide_eq_true_2 by done. eexists. repeat split.
    + rewrite bool_decide_eq_false_2 by done. reflexivity.
Qed.

(** ** The invariant of the device list *)

Lemma registry_ok_frame (w w' : world) :
  vhd_list w' = vhd_list w ->
  last_id w' = last_id w ->
  (forall h, is_Some (open_files w !! h) -> is_Some (open_files w' !! h)) ->
  registry_ok w -> registry_ok w'.
Proof.
  intros Hl Hi Ho [H1 H2 H3 H4]. split; rewrite ?Hl, ?Hi; auto.
Qed.

Lemma NoDup_fmap_middle {A B} (f : A -> B) (l1 l2 : list A) (x : A) :
  NoDup (f <$> (l1 ++ x :: l2)) <->
  (f x ∉ (f <$> (l1 ++ l2))) /\ NoDup (f <$> (l1 ++ l2)).
Proof.
  rewrite <- (Permutation_middle l1 l2 x), fmap_cons. apply NoDup_cons.
Qed.

Lemma registry_ok_delete name w w' dev :
  registry_ok w ->
  vhd_find name (vhd_list w) = Some dev ->
  vhd_list w' = vhd_unlink name (vhd_list w) ->
  open_files w' = delete (file dev) (open_files w) ->
  last_id w' = last_id w ->
  registry_ok w'.
Proof.
  intros [H1 H2 H3 H4] Hfind El Eo Ei.
  destruct (vhd_find_Some _ _ _ Hfind) as (l1 & l2 & Hl & _ & _ & Hu & _).
  rewrite Hl in H1, H2, H3. apply NoDup_fmap_middle in H1, H2.
  split; rewrite ?El, ?Eo, ?Ei, ?Hu; try tauto.
  intros d Hd. rewrite lookup_delete_ne.
  - apply H3. rewrite elem_of_app in *. rewrite elem_of_cons. tauto.
  - intros E. apply (proj1 H2). rewrite E. apply list_elem_of_fmap_2, Hd.
Qed.

Lemma registry_ok_replace name w w' old h f :
  registry_ok w ->
  vhd_find name (vhd_list w) = Some old ->
  open_files w !! h = None ->
  vhd_list w' = vhd_set_file name h (vhd_list w) ->
  open_files w' = delete (file old) (<[h := f]> (open_files w)) ->
  last_id w' = last_id w ->
  registry_ok w'.
Proof.
  intros [H1 H2 H3 H4] Hfind Hh El Eo Ei.
  destruct (vhd_find_Some _ _ _ Hfind) as (l1 & l2 & Hl & Hn & _ & _ & Hs).
  rewrite Hl in H1, H2, H3.
  assert (Hfresh : forall d, d ∈ l1 ++ old :: l2 -> file d <> h).
  { intros d Hd E. destruct (H3 d Hd) as [x Hx]. congruence. }
  apply NoDup_fmap_middle in H2. destruct H2 as [H2a H2b].
  split; rewrite ?El, ?Eo, ?Ei, ?Hs; try done.
  - rewrite fmap_app, fmap_cons in *. simpl. rewrite <- Hn. exact H1.
  - apply NoDup_fmap_middle. split; [|exact H2b]. simpl.
    intros Hin. apply list_elem_of_fmap in Hin as (d & E & Hd).
    apply (Hfresh d); [|done].
    rewrite elem_of_app in *. rewrite elem_of_cons. tauto.
  - intros d Hd. rewrite elem_of_app, elem_of_cons in Hd.
    assert (Hold : file old <> h)
      by (apply Hfresh; rewrite elem_of_app, elem_of_cons; tauto).
    destruct Hd as [Hd|[->|Hd]].
    + rewrite lookup_delete_ne, lookup_insert_ne.
      * apply H3. rewrite elem_of_app. tauto.
      * intros E. apply (Hfresh d); [|done]. rewrite elem_of_app. tauto.
      * intros E. apply H2a. rewrite E. apply list_elem_of_fmap_2.
        rewrite elem_of_app. tauto.
    + simpl. rewrite lookup_delete_ne, lookup_insert_eq by done. eauto.
    + rewrite lookup_delete_ne, lookup_insert_ne.
      * apply H3. rewrite elem_of_app, elem_of_cons. tauto.
      * intros E. apply (Hfresh d); [|done].
        rewrite elem_of_app, elem_of_cons. tauto.
      * intros E. apply H2a. rewrite E. apply list_elem_of_fmap_2.
        rewrite elem_of_app. tauto.
Qed.

Lemma registry_ok_create name w w' h f :
  registry_ok w ->
  name ∉ names w ->
  open_files w !! h = None ->
  vhd_list w' = {| devname := name; file := h; id := last_id w |} :: vhd_list w ->
  open_files w' = <[h := f]> (open_files w) ->
  last_id w' = ulong (last_id w + 1) ->
  registry_ok w'.
Proof.
  intros [H1 H2 H3 H4] Hnew Hh El Eo Ei.
  split; rewrite ?El, ?Eo, ?Ei; rewrite ?fmap_cons; simpl.
  - apply NoDup_cons. split; [exact Hnew|exact H1].
  - apply NoDup_cons. split; [|exact H2].
    intros Hin. apply list_elem_of_fmap in Hin as (d & E & Hd).
    destruct (H3 d Hd) as [x Hx]. congruence.
  - intros d Hd. apply elem_of_cons in Hd as [->|Hd]; simpl.
    + rewrite lookup_insert_eq. eauto.
    + destruct (decide (h = file d)) as [<-|Hne].
      * rewrite lookup_insert_eq. eauto.
      * rewrite lookup_insert_ne by done. auto.
  - unfold ulong. apply Z.mod_pos_bound. unfold ULONG_BITS. lia.
Qed.

Lemma registry_ok_cmd del args w e w' :
  registry_ok w ->
  grub_cmd_vhd del args w = Returned e w' ->
  registry_ok w'.
Proof.
  intros Hok H. destruct args as [|name rest].
  { rewrite grub_cmd_vhd_no_name in H. injection H as _ <-.
    revert Hok. apply registry_ok_frame; auto. }
  destruct del.
  { rewrite grub_cmd_vhd_delete in H.
    destruct (vhd_find name (vhd_list w)) as [dev|] eqn:Hfind.
    - rewrite (delete_vhd_found _ _ _ Hfind) in H.
      + injection H as _ <-. eapply registry_ok_delete; eauto.
      + apply (ok_open _ Hok).
        destruct (vhd_find_Some _ _ _ Hfind) as (l1 & l2 & -> & _).
        rewrite elem_of_app, elem_of_cons. tauto.
    - apply vhd_find_None in Hfind. rewrite delete_vhd_missing in H by done.
      injection H as _ <-. revert Hok. apply registry_ok_frame; auto. }
  destruct rest as [|path rest].
  { rewrite grub_cmd_vhd_no_file in H. injection H as _ <-.
    revert Hok. apply registry_ok_frame; auto. }
  destruct (storage w !! path) as [bytes|] eqn:Hst.
  2:{ rewrite grub_cmd_vhd_open_failed in H by done. injection H as _ <-.
      revert Hok. apply registry_ok_frame; auto. }
  destruct (vhd_find name (vhd_list w)) as [old|] eqn:Hfind.
  - rewrite (grub_cmd_vhd_replace _ _ _ _ _ _ Hfind Hst) in H.
    + injection H as _ <-.
      eapply registry_ok_replace; eauto using fresh_handle_closed.
    + apply (ok_open _ Hok).
      destruct (vhd_find_Some _ _ _ Hfind) as (l1 & l2 & -> & _).
      rewrite elem_of_app, elem_of_cons. tauto.
  - apply vhd_find_None in Hfind.
    rewrite (grub_cmd_vhd_create _ _ _ _ _ Hfind Hst) in H.
    destruct (_ && _); injection H as _ <-.
    + eapply registry_ok_create; eauto using fresh_handle_closed.
    + revert Hok. apply registry_ok_frame; auto.
Qed.

(** A read on a registered device returns unless it divides by zero, and
    then it has made its six requests and changed nothing of the
    registry. *)
Lemma grub_vhd_read_frame disk s n buf hdr0 bp0 w r w' :
  is_Some (open_files w !! file (data disk)) ->
  length hdr0 = 1024%nat -> length bp0 = 4%nat -> 0 <= s ->
  grub_vhd_read disk s n buf hdr0 bp0 w = Returned r w' ->
  exists evs, file_step evs (file (data disk)) w w' /\ length evs = 6%nat.
Proof.
  intros [f Hf] Hl0 Hlb Hs H.
  destruct (seek_read_open (file (data disk)) 512 hdr0 1024 w f Hf)
    as (got & w1 & Hh & _).
  destruct (grub_vhd_read_run disk s n buf hdr0 bp0 w _ w1 Hh Hl0 Hlb Hs)
    as (_ & Hs1 & Hz & Hnz).
  destruct (decide (blockSize (overwrite hdr0 got) / 512 = 0)) as [E|E].
  - rewrite (Hz E) in H. discriminate.
  - destruct (Hnz E) as (bpm & w2 & e & buf' & w3 & _ & _ & Hs2 & Hr & _ & Hs3).
    rewrite Hr in H. injection H as _ <-.
    eexists. split.
    + exact (file_step_trans _ _ _ _ _ _ (file_step_trans _ _ _ _ _ _ Hs1 Hs2) Hs3).
    + reflexivity.
Qed.

Lemma registry_ok_step w w' : registry_ok w -> step w w' -> registry_ok w'.
Proof.
  intros Hok Hstep. destruct Hstep as
    [del args e w w' H | cache_bits size_unknown name r w w' H
    | disk s n buf hdr0 bp0 r w w' Hin Hl0 Hlb Hs H
    | disk s n buf e w w' H].
  - eapply registry_ok_cmd; eauto.
  - revert H. unfold grub_vhd_open, grub_error. run_world.
    destruct (vhd_find name (vhd_list w)); intros [= _ <-];
      revert Hok; apply registry_ok_frame; auto.
  - destruct (grub_vhd_read_frame _ _ _ _ _ _ _ _ _
                (ok_open _ Hok _ Hin) Hl0 Hlb Hs H) as (evs & Hfs & _).
    revert Hok. apply registry_ok_frame.
    + apply (fs_vhd_list _ _ _ _ Hfs).
    + apply (fs_last_id _ _ _ _ Hfs).
    + intros h. apply (file_step_open _ _ _ _ _ Hfs).
  - revert H. unfold grub_vhd_write, grub_error. run_world.
    intros [= _ <-]. revert Hok. apply registry_ok_frame; auto.
Qed.

(** Every state the module can reach has distinct device names, distinct
    open backing files and a counter in range. *)
Lemma reachable_registry_ok w : reachable w -> registry_ok w.
Proof.
  induction 1 as [w [Hl Hi]|w w' _ IH Hstep].
  - split; rewrite ?Hl, ?Hi; try constructor.
    + intros dev Hd. apply elem_of_nil in Hd. contradiction.
    + lia.
    + unfold ULONG_BITS. lia.
  - eapply registry_ok_step; eauto.
Qed.

(** * The read path (C1, C4, C9, C10) *)

(** On a complete file the header decode leaves bytes [512, 1536) of the
    file in the header buffer. *)
Lemma header_read_complete h hdr0 w f hdr w1 :
  open_files w !! h = Some f ->
  length hdr0 = 1024%nat ->
  1536 <= f_size f ->
  header_read h hdr0 w = Returned hdr w1 ->
  hdr = field 512 1024 (f_data f).
Proof.
  intros Hf Hl Hsz H.
  destruct (grub_file_seek_open h 512 w f Hf) as (wa & Hseek & Hs1 & _ & Hin).
  destruct (Hin ltac:(lia)) as [_ Hfa].
  destruct (grub_file_read_open h hdr0 1024 wa _ Hfa)
    as (got & wb & Hread & _ & _ & _ & Hgot).
  unfold header_read in H.
  rewrite (bind_Returned _ _ _ _ _ Hseek), Hread in H. injection H as <- _.
  unfold f_size in *. cbn [f_data f_offset] in Hgot.
  destruct (Hgot ltac:(lia)) as [-> _].
  replace (Z.to_nat (1024 `min` (Z.of_nat (length (f_data f)) - 512)))
    with 1024%nat by lia.
  change (Z.to_nat 512) with 512%nat.
  unfold overwrite, field.
  assert (Hg : length (take 1024 (drop 512 (f_data f))) = 1024%nat)
    by (rewrite length_take, length_drop; lia).
  rewrite Hg, (drop_ge hdr0) by lia. apply app_nil_r.
Qed.

Lemma sample_world_reachable bytes short : reachable (sample_world bytes short).
Proof.
  eapply reachable_step.
  - apply (reachable_initial (empty_world {[ "f" := bytes ]} [] short)).
    split; reflexivity.
  - eapply (step_cmd false ["hd"; "f"]). vm_compute. reflexivity.
Qed.

(** In every reachable state the header decode on a registered device
    returns. *)
Lemma registered_header_read w dev hdr0 :
  reachable w -> dev ∈ vhd_list w ->
  exists hdr w1, header_read (file dev) hdr0 w = Returned hdr w1.
Proof.
  intros Hr Hin.
  destruct (ok_open _ (reachable_registry_ok _ Hr) _ Hin) as [f Hf].
  destruct (seek_read_open (file dev) 512 hdr0 1024 w f Hf) as (got & w1 & H & _).
  eauto.
Qed.

(** C1, as amended. A read of [n] sectors at sector [s] (on a registered
    device or any other whose header decode returns) whose header decode
    finds a block size that is a nonzero multiple of 512 computes
    [density = blockSize >> 9 = blockSize / 512], [blockIndex = s / density]
    and [sectorInBlock = s mod density] exactly, looks the big-endian BAT
    entry up at [(batOffset + blockIndex * 4) mod 2^64], and makes one
    seek and one read of [n * 512 mod 2^64] bytes at
    [((blockPointer + 1) mod 2^32 + sectorInBlock) * 512]: six requests in
    all, whatever block boundary the range spans. The three wrap-arounds
    vanish when [batOffset + blockIndex * 4 < 2^64], when [blockPointer]
    is not [0xFFFFFFFF] and when [n < 2^55]. *)
Theorem C1_read_translation w disk s n buf hdr0 bp0 hdr w1 bpm w2 :
  let h := file (data disk) in
  length hdr0 = 1024%nat -> length bp0 = 4%nat -> 0 <= s ->
  header_read h hdr0 w = Returned hdr w1 ->
  (512 | blockSize hdr) -> blockSize hdr <> 0 ->
  let density := blockSize hdr / 512 in
  let blockIndex := s / density in
  let sectorInBlock := s mod density in
  bat_entry_read h ((batOffset hdr + blockIndex * 4) mod 2 ^ 64) bp0 w1
    = Returned bpm w2 ->
  density = Z.shiftr (blockSize hdr) 9
  /\ density * 512 = blockSize hdr
  /\ s = density * blockIndex + sectorInBlock
  /\ 0 <= sectorInBlock < density
  /\ (exists e buf' w',
        grub_vhd_read disk s n buf hdr0 bp0 w = Returned (e, buf') w'
        /\ io_log w' =
             io_log w ++
               [EvSeek h 512; EvRead h 1024;
                EvSeek h ((batOffset hdr + blockIndex * 4) mod 2 ^ 64);
                EvRead h 4;
                EvSeek h (((blockPointer bpm + 1) mod 2 ^ 32 + sectorInBlock) * 512);
                EvRead h (n * 512 mod 2 ^ 64)])
  /\ (batOffset hdr + blockIndex * 4 < 2 ^ 64 ->
      (batOffset hdr + blockIndex * 4) mod 2 ^ 64 = batOffset hdr + blockIndex * 4)
  /\ (blockPointer bpm <> 0xFFFFFFFF ->
      ((blockPointer bpm + 1) mod 2 ^ 32 + sectorInBlock) * 512
      = (blockPointer bpm + 1 + sectorInBlock) * 512)
  /\ (0 <= n < 2 ^ 55 -> n * 512 mod 2 ^ 64 = n * 512).
Proof.
  intros h Hl0 Hlb Hs Hh [k Hk] Hnz density blockIndex sectorInBlock Hbat.
  pose proof (blockSize_range hdr) as Hbs.
  assert (Hd : density = k) by (subst density; rewrite Hk; apply Z.div_mul; lia).
  assert (Hpos : 0 < density) by lia.
  destruct (grub_vhd_read_run disk s n buf hdr0 bp0 w hdr w1 Hh Hl0 Hlb Hs)
    as (_ & Hs1 & _ & Hrun).
  destruct (Hrun ltac:(fold density; lia))
    as (bpm' & w2' & e & buf' & w3 & Hbat' & Hlb' & Hs2 & Hr & _ & Hs3).
  fold h density blockIndex in Hbat', Hs2, Hs3. rewrite Hbat in Hbat'.
  injection Hbat' as <- <-.
  split; [subst density; rewrite Z.shiftr_div_pow2 by lia; reflexivity|].
  split; [lia|].
  split; [apply Z.div_mod; lia|].
  split; [apply Z.mod_pos_bound; lia|].
  split.
  { exists e, buf', w3. split; [exact Hr|].
    rewrite (fs_log _ _ _ _ Hs3), (fs_log _ _ _ _ Hs2), (fs_log _ _ _ _ Hs1).
    rewrite <- !app_assoc. reflexivity. }
  assert (0 <= batOffset hdr)
    by (unfold batOffset; apply be_decode_range).
  assert (0 <= blockPointer bpm < 2 ^ 32).
  { unfold blockPointer. pose proof (be_decode_range (field 0 4 bpm)) as H4.
    rewrite length_field in H4 by lia. exact H4. }
  assert (0 <= blockIndex) by (apply Z.div_pos; lia).
  split; [intros; apply Z.mod_small; lia|].
  split; [intros; rewrite (Z.mod_small (blockPointer bpm + 1)) by lia; reflexivity|].
  intros. apply Z.mod_small. lia.
Qed.

Lemma C1_read_translation_witness :
  let w := sample_world image_small GRUB_ERR_NONE in
  let hdr := field 512 1024 image_small in
  let bpm := field 1536 4 image_small in
  header_read 0 (zeros 1024) w
    = Returned hdr
        (sample_world_after image_small GRUB_ERR_NONE GRUB_ERR_NONE 1536
           [EvSeek 0 512; EvRead 0 1024])
  /\ blockSize hdr = 2 * 512
  /\ batOffset hdr = 1536
  /\ blockPointer bpm = 4
  /\ exists e buf' w',
       grub_vhd_read sample_disk 1 1 (zeros 512) (zeros 1024) (zeros 4) w
         = Returned (e, buf') w'
       /\ io_log w' =
            io_log w ++ [EvSeek 0 512; EvRead 0 1024; EvSeek 0 1536; EvRead 0 4;
                         EvSeek 0 ((4 + 1 + 1) * 512); EvRead 0 512].
Proof.
  intros w hdr bpm.
  assert (Hh : header_read 0 (zeros 1024) w
               = Returned hdr
                   (sample_world_after image_small GRUB_ERR_NONE GRUB_ERR_NONE
                      1536 [EvSeek 0 512; EvRead 0 1024]))
    by (vm_compute; reflexivity).
  assert (Hbs : blockSize hdr = 2 * 512) by (vm_compute; reflexivity).
  split; [exact Hh|]. split; [exact Hbs|].
  split; [vm_compute; reflexivity|]. split; [vm_compute; reflexivity|].
  destruct (C1_read_translation w sample_disk 1 1 (zeros 512) (zeros 1024)
              (zeros 4) hdr
              (sample_world_after image_small GRUB_ERR_NONE GRUB_ERR_NONE 1536
                 [EvSeek 0 512; EvRead 0 1024])
              bpm
              (sample_world_after image_small GRUB_ERR_NONE GRUB_ERR_NONE 1540
                 [EvSeek 0 512; EvRead 0 1024; EvSeek 0 1536; EvRead 0 4]))
    as (_ & _ & _ & _ & (e & buf' & w' & Hr & Hlog) & _).
  - reflexivity.
  - reflexivity.
  - lia.
  - exact Hh.
  - exists 2. exact Hbs.
  - rewrite Hbs. lia.
  - vm_compute. reflexivity.
  - exists e, buf', w'. split; [exact Hr|]. rewrite Hlog.
    vm_compute. reflexivity.
Defined.

(** C1 as stated fails at three kinds of input. (a) The BAT entry of the
    block is [0xFFFFFFFF]: the transfer is made at offset 0, not at
    [(0xFFFFFFFF + 1 + 0) * 512]. (b) The block size is 0, a multiple of
    512: the read divides by zero after the header decode and makes no
    transfer. (c) The BAT offset is [2^64 - 4] and the count [2^55]: the
    entry is looked up at offset 0, not at [2^64], and 0 bytes are asked
    for, not [2^64]. *)
Lemma C1_counterexample :
  (blockSize (field 512 1024 image_small) = 2 * 512
   /\ blockPointer (field 1540 4 image_small) = 0xFFFFFFFF
   /\ (0xFFFFFFFF + 1 + 2 mod 2) * 512 = 2199023255552
   /\ grub_vhd_read sample_disk 2 1 (zeros 512) (zeros 1024) (zeros 4)
        (sample_world image_small GRUB_ERR_NONE)
      = Returned (GRUB_ERR_NONE, zeros 512)
          (sample_world_after image_small GRUB_ERR_NONE GRUB_ERR_NONE 512
             [EvSeek 0 512; EvRead 0 1024; EvSeek 0 1540; EvRead 0 4;
              EvSeek 0 0; EvRead 0 512]))
  /\ (blockSize (field 512 1024 image_zero_blocksize) = 0 * 512
      /\ grub_vhd_read sample_disk 0 1 (zeros 512) (zeros 1024) (zeros 4)
           (sample_world image_zero_blocksize GRUB_ERR_NONE)
         = Crashed DivideByZero
             (sample_world_after image_zero_blocksize GRUB_ERR_NONE
                GRUB_ERR_NONE 1536 [EvSeek 0 512; EvRead 0 1024]))
  /\ (blockSize (field 512 1024 image_far_bat) = 2 * 512
      /\ batOffset (field 512 1024 image_far_bat) + 2 / 2 * 4 = 2 ^ 64
      /\ 2 ^ 55 * 512 = 2 ^ 64
      /\ grub_vhd_read sample_disk 2 (2 ^ 55) (zeros 512) (zeros 1024) (zeros 4)
           (sample_world image_far_bat GRUB_ERR_NONE)
         = Returned (GRUB_ERR_NONE, zeros 512)
             (sample_world_after image_far_bat GRUB_ERR_NONE GRUB_ERR_NONE 512
                [EvSeek 0 512; EvRead 0 1024; EvSeek 0 0; EvRead 0 4;
                 EvSeek 0 512; EvRead 0 0])).
Proof. repeat split; vm_compute; reflexivity. Qed.

(** A seek and a read that lie within the file deliver exactly the bytes
    asked for and record no error. *)
Lemma seek_read_exact h off buf len w f :
  open_files w !! h = Some f ->
  0 <= off -> 0 <= len -> off + len <= f_size f ->
  length buf = Z.to_nat len ->
  exists w',
    (run grub_file_seek h off; grub_file_read h buf len) w
      = Returned (field (Z.to_nat off) (Z.to_nat len) (f_data f)) w'
    /\ grub_errno w' = grub_errno w
    /\ file_step [EvSeek h off; EvRead h len] h w w'.
Proof.
  intros Hf Hoff Hlen Hin Hbuf.
  destruct (grub_file_seek_open h off w f Hf) as (wa & Hseek & Hs1 & _ & Hok).
  destruct (Hok ltac:(lia)) as [Hea Hfa].
  destruct (grub_file_read_open h buf len wa _ Hfa)
    as (got & wb & Hread & Hs2 & _ & _ & Hgot).
  unfold f_size in *. cbn [f_data f_offset] in Hgot.
  destruct (Hgot ltac:(lia)) as [Hg He].
  assert (Hgl : length got = Z.to_nat len).
  { rewrite Hg, length_take, length_drop. lia. }
  exists wb. rewrite (bind_Returned _ _ _ _ _ Hseek), Hread.
  split.
  { f_equal. unfold overwrite, field. rewrite Hgl, (drop_ge buf) by lia.
    rewrite app_nil_r, Hg. f_equal. lia. }
  split.
  { rewrite He. destruct (Z.ltb_spec (Z.of_nat (length got)) len); [lia|].
    exact Hea. }
  exact (file_step_trans _ _ _ _ _ _ Hs1 Hs2).
Qed.

(** [grub_vhd_read] from the BAT lookup on, as an equation: once the
    header decode and the BAT lookup have returned, the result is what the
    final seek and read give, with [grub_errno] as the code. *)
Lemma grub_vhd_read_steps disk s n buf hdr0 bp0 w hdr w1 bpm w2 buf' w3 :
  let h := file (data disk) in
  let density := blockSize hdr / 512 in
  header_read h hdr0 w = Returned hdr w1 ->
  length hdr0 = 1024%nat -> length bp0 = 4%nat -> 0 <= s ->
  density <> 0 ->
  bat_entry_read h ((batOffset hdr + s / density * 4) mod 2 ^ 64) bp0 w1
    = Returned bpm w2 ->
  (run grub_file_seek h
         (((blockPointer bpm + 1) mod 2 ^ 32 + s mod density) * 512);
   grub_file_read h buf (n * 512 mod 2 ^ 64)) w2 = Returned buf' w3 ->
  grub_vhd_read disk s n buf hdr0 bp0 w = Returned (grub_errno w3, buf') w3.
Proof.
  intros h density Hh Hl0 Hlb Hs Hnz Hbat Hfin.
  unfold grub_vhd_read. cbv zeta. fold h.
  destruct (bind_Returned_inv _ _ _ _ _ Hh) as ([] & wa & Hseek & Hread).
  rewrite (bind_Returned _ _ _ _ _ Hseek), (bind_Returned _ _ _ _ _ Hread).
  pose proof (blockSize_range hdr) as Hbs.
  destruct (seek_read_inv _ _ _ _ _ _ _ Hh) as (got & f & Hhdr & Hf & Hs1 & Hlen).
  assert (Hl : length hdr = 1024%nat).
  { subst hdr. rewrite length_overwrite. specialize (Hlen ltac:(lia)). lia. }
  destruct (header_fields hdr Hl) as [E1 E2].
  rewrite E1, E2, density_shift by exact Hbs. fold density.
  unfold grub_divmod64.
  destruct (Z.eqb_spec density 0) as [|_]; [contradiction|].
  rewrite bind_ret, bat_pos_wrap.
  destruct (bind_Returned_inv _ _ _ _ _ Hbat) as ([] & wb & Hseek2 & Hread2).
  rewrite (bind_Returned _ _ _ _ _ Hseek2), (bind_Returned _ _ _ _ _ Hread2).
  destruct (seek_read_inv _ _ _ _ _ _ _ Hbat) as (got2 & f1 & Hbpm & _ & _ & Hlen2).
  assert (Hlb' : length bpm = 4%nat).
  { subst bpm. rewrite length_overwrite. specialize (Hlen2 ltac:(lia)). lia. }
  assert (E3 : grub_swap_bytes32 (load_le (field 0 4 bpm)) = blockPointer bpm).
  { apply swap32_load, length_field. lia. }
  assert (Hd : 0 <= s mod density < 2 ^ 23).
  { assert (0 <= density < 2 ^ 23).
    { subst density. split; [apply Z.div_pos; lia|].
      apply Z.div_lt_upper_bound; lia. }
    pose proof (Z.mod_pos_bound s density ltac:(lia)). lia. }
  rewrite E3, finalpos_exact, len_wrap by exact Hd.
  destruct (bind_Returned_inv _ _ _ _ _ Hfin) as ([] & wc & Hseek3 & Hread3).
  rewrite (bind_Returned _ _ _ _ _ Hseek3), (bind_Returned _ _ _ _ _ Hread3).
  unfold bind, get, ret.
  destruct (decide (grub_errno w3 <> GRUB_ERR_NONE)) as [|Hn]; [reflexivity|].
  apply dec_stable in Hn. rewrite Hn. reflexivity.
Qed.

(** C9, as amended. When the BAT entry of the block is the all-ones value,
    adding 1 wraps to 0 in 32 bits before the sum is widened, and the read
    has no special case for it: it seeks to [(s mod density) * 512], within
    the first [blockSize] bytes of the file, and asks for the sectors
    there. What comes of it is up to the file: with no error on record and
    the [n * 512] bytes from that offset inside the file, the read returns
    success and the caller's buffer holds exactly those bytes of the file;
    with the offset past the end of the file the seek is refused and the
    read returns an error. *)
Theorem C9_unallocated_block w disk s n buf hdr0 bp0 hdr w1 bpm w2 f2 :
  let h := file (data disk) in
  length hdr0 = 1024%nat -> length bp0 = 4%nat -> 0 <= s ->
  header_read h hdr0 w = Returned hdr w1 ->
  let density := Z.shiftr (blockSize hdr) 9 in
  density <> 0 ->
  bat_entry_read h ((batOffset hdr + s / density * 4) mod 2 ^ 64) bp0 w1
    = Returned bpm w2 ->
  blockPointer bpm = 0xFFFFFFFF ->
  open_files w2 !! h = Some f2 ->
  let off := (s mod density) * 512 in
  u32 (blockPointer bpm + 1) = 0
  /\ (u32 (blockPointer bpm + 1) + s mod density) * 512 = off
  /\ 0 <= off < blockSize hdr
  /\ exists e buf' w',
       grub_vhd_read disk s n buf hdr0 bp0 w = Returned (e, buf') w'
       /\ io_log w' =
            io_log w2 ++ [EvSeek h off; EvRead h (n * 512 mod 2 ^ 64)]
       /\ e = grub_errno w'
       /\ (grub_errno w2 = GRUB_ERR_NONE ->
           0 <= n < 2 ^ 55 -> length buf = Z.to_nat (n * 512) ->
           off + n * 512 <= f_size f2 ->
           e = GRUB_ERR_NONE
           /\ buf' = field (Z.to_nat off) (Z.to_nat (n * 512)) (f_data f2))
       /\ (f_size f2 < off -> e <> GRUB_ERR_NONE).
Proof.
  intros h Hl0 Hlb Hs Hh density Hnz Hbat Hbp Hf2 off.
  pose proof (blockSize_range hdr) as Hbs.
  assert (Hd : density = blockSize hdr / 512)
    by (subst density; rewrite Z.shiftr_div_pow2 by lia; reflexivity).
  assert (Hw : u32 (blockPointer bpm + 1) = 0) by (rewrite Hbp; reflexivity).
  assert (Hpos : 0 < density)
    by (rewrite Hd in *; pose proof (Z.div_pos (blockSize hdr) 512); lia).
  pose proof (Z.mod_pos_bound s density Hpos) as Hm.
  split; [exact Hw|]. split; [rewrite Hw; reflexivity|].
  split.
  { pose proof (Z.mul_div_le (blockSize hdr) 512 ltac:(lia)). rewrite <- Hd in *.
    unfold off. lia. }
  (* the final seek and read, whatever the file holds *)
  destruct (grub_file_seek_open h off w2 f2 Hf2) as (wa & Hseek & Hs1 & Hout & Hin).
  assert (Hfa : exists fa, open_files wa !! h = Some fa).
  { destruct (Z.lt_ge_cases (f_size f2) off) as [Hlt|Hge].
    - destruct (Hout Hlt) as [_ Ho]. rewrite Ho. eauto.
    - destruct (Hin Hge) as [_ Ho]. eauto. }
  destruct Hfa as [fa Hfa].
  destruct (grub_file_read_open h buf (n * 512 mod 2 ^ 64) wa fa Hfa)
    as (got & wb & Hread & Hs2 & _).
  assert (Hfin : (run grub_file_seek h off;
                  grub_file_read h buf (n * 512 mod 2 ^ 64)) w2
                 = Returned (overwrite buf got) wb)
    by (rewrite (bind_Returned _ _ _ _ _ Hseek); exact Hread).
  assert (Hoff : ((blockPointer bpm + 1) mod 2 ^ 32 + s mod (blockSize hdr / 512)) * 512
                 = off).
  { rewrite <- Hd. unfold u32 in Hw. rewrite Hw. reflexivity. }
  exists (grub_errno wb), (overwrite buf got), wb.
  split.
  { apply (grub_vhd_read_steps disk s n buf hdr0 bp0 w hdr w1 bpm w2);
      try assumption.
    - rewrite <- Hd. exact Hnz.
    - rewrite <- Hd. exact Hbat.
    - fold h. rewrite Hoff. exact Hfin. }
  split.
  { rewrite (fs_log _ _ _ _ Hs2), (fs_log _ _ _ _ Hs1), <- app_assoc. reflexivity. }
  split; [reflexivity|]. split.
  - intros He Hn Hbuf Hrange.
    assert (Hlen : n * 512 mod 2 ^ 64 = n * 512) by (apply Z.mod_small; lia).
    destruct (seek_read_exact h off buf (n * 512) w2 f2 Hf2)
      as (w3 & Hex & He3 & _); try lia.
    rewrite Hlen, Hex in Hfin. injection Hfin as Hb Hw3.
    rewrite <- Hw3, <- Hb, He3. split; [exact He|reflexivity].
  - intros Hpast. destruct (Hout Hpast) as [Hea _].
    apply (fs_errno _ _ _ _ Hs2). rewrite Hea. discriminate.
Qed.

Lemma C9_unallocated_block_witness :
  let w := sample_world image_small GRUB_ERR_NONE in
  blockPointer (field 1540 4 image_small) = 0xFFFFFFFF
  /\ exists w',
       grub_vhd_read sample_disk 3 1 (zeros 512) (zeros 1024) (zeros 4) w
         = Returned (GRUB_ERR_NONE, field 512 512 image_small) w'
       /\ io_log w' =
            [EvOpen "f" 0; EvSeek 0 512; EvRead 0 1024; EvSeek 0 1540;
             EvRead 0 4; EvSeek 0 512; EvRead 0 512].
Proof.
  intros w.
  assert (Hbp : blockPointer (field 1540 4 image_small) = 0xFFFFFFFF)
    by (vm_compute; reflexivity).
  split; [exact Hbp|].
  destruct (C9_unallocated_block w sample_disk 3 1 (zeros 512) (zeros 1024)
              (zeros 4) (field 512 1024 image_small)
              (sample_world_after image_small GRUB_ERR_NONE GRUB_ERR_NONE 1536
                 [EvSeek 0 512; EvRead 0 1024])
              (field 1540 4 image_small)
              (sample_world_after image_small GRUB_ERR_NONE GRUB_ERR_NONE 1544
                 [EvSeek 0 512; EvRead 0 1024; EvSeek 0 1540; EvRead 0 4])
              {| f_data := image_small; f_offset := 1544 |})
    as (_ & _ & _ & e & buf' & w' & Hr & Hlog & _ & Hin & _).
  - reflexivity.
  - reflexivity.
  - lia.
  - vm_compute. reflexivity.
  - vm_compute. discriminate.
  - vm_compute. reflexivity.
  - exact Hbp.
  - reflexivity.
  - destruct Hin as [He Hb].
    + reflexivity.
    + lia.
    + reflexivity.
    + vm_compute. intros H. discriminate H.
    + exists w'. rewrite Hr, He, Hb. split; [reflexivity|]. rewrite Hlog.
      vm_compute. reflexivity.
Defined.

(** C9 as stated fails where the file is shorter than the block it is
    laid out for. A 1540-byte image with a block size of 4096 whose one BAT
    entry is [0xFFFFFFFF], read at sector 7 with no error on record: the
    offset is [(7 mod 8) * 512 = 3584], past the end of the file; the seek
    is refused, the read that follows at the end of the file delivers
    nothing, and the call returns [GRUB_ERR_OUT_OF_RANGE] with the
    caller's buffer as it was. *)
Lemma C9_counterexample :
  Z.of_nat (length image_unallocated) = 1540
  /\ blockSize (field 512 1024 image_unallocated) = 4096
  /\ blockPointer (field 1536 4 image_unallocated) = 0xFFFFFFFF
  /\ (7 mod (4096 / 512)) * 512 = 3584
  /\ grub_vhd_read sample_disk 7 1 (zeros 512) (zeros 1024) (zeros 4)
       (sample_world image_unallocated GRUB_ERR_NONE)
     = Returned (GRUB_ERR_OUT_OF_RANGE, zeros 512)
         (sample_world_after image_unallocated GRUB_ERR_NONE
            GRUB_ERR_OUT_OF_RANGE 1540
            [EvSeek 0 512; EvRead 0 1024; EvSeek 0 1536; EvRead 0 4;
             EvSeek 0 3584; EvRead 0 512]).
Proof. repeat split; vm_compute; reflexivity. Qed.

(** C10. Nothing guards the division by [density = blockSize >> 9]. A
    block size of at least 512 (so every nonzero multiple of 512) gives a
    nonzero density and the read returns; a block size below 512 gives
    density 0 and the read ends in the division-by-zero fault right after
    the header decode. *)
Theorem C10_division_unguarded w disk s n buf hdr0 bp0 hdr w1 :
  let h := file (data disk) in
  length hdr0 = 1024%nat -> length bp0 = 4%nat -> 0 <= s ->
  header_read h hdr0 w = Returned hdr w1 ->
  let density := Z.shiftr (blockSize hdr) 9 in
  ((512 | blockSize hdr) -> blockSize hdr <> 0 -> 512 <= blockSize hdr)
  /\ (512 <= blockSize hdr ->
      density <> 0
      /\ exists r w', grub_vhd_read disk s n buf hdr0 bp0 w = Returned r w')
  /\ (blockSize hdr < 512 ->
      density = 0
      /\ grub_vhd_read disk s n buf hdr0 bp0 w = Crashed DivideByZero w1).
Proof.
  intros h Hl0 Hlb Hs Hh density.
  pose proof (blockSize_range hdr) as Hbs.
  assert (Hd : density = blockSize hdr / 512)
    by (subst density; rewrite Z.shiftr_div_pow2 by lia; reflexivity).
  destruct (grub_vhd_read_run disk s n buf hdr0 bp0 w hdr w1 Hh Hl0 Hlb Hs)
    as (_ & _ & Hz & Hrun).
  rewrite <- Hd in Hz, Hrun.
  split; [intros [k Hk] Hnz; lia|]. split.
  - intros Hge.
    assert (Hnz : density <> 0).
    { rewrite Hd. pose proof (Z.div_le_mono 512 (blockSize hdr) 512). 
      change (512 / 512) with 1 in *. lia. }
    split; [exact Hnz|].
    destruct (Hrun Hnz) as (_ & _ & e & buf' & w' & _ & _ & _ & Hr & _).
    eauto.
  - intros Hlt.
    assert (Hz0 : density = 0) by (rewrite Hd; apply Z.div_small; lia).
    split; [exact Hz0|]. apply Hz, Hz0.
Qed.

Lemma C10_division_unguarded_witness :
  let w := sample_world image_zero_blocksize GRUB_ERR_NONE in
  let w1 := sample_world_after image_zero_blocksize GRUB_ERR_NONE GRUB_ERR_NONE
              1536 [EvSeek 0 512; EvRead 0 1024] in
  header_read 0 (zeros 1024) w = Returned (field 512 1024 image_zero_blocksize) w1
  /\ blockSize (field 512 1024 image_zero_blocksize) = 0
  /\ grub_vhd_read sample_disk 5 1 (zeros 512) (zeros 1024) (zeros 4) w
     = Crashed DivideByZero w1.
Proof.
  intros w w1.
  assert (Hh : header_read 0 (zeros 1024) w
               = Returned (field 512 1024 image_zero_blocksize) w1)
    by (vm_compute; reflexivity).
  assert (Hbs : blockSize (field 512 1024 image_zero_blocksize) = 0)
    by (vm_compute; reflexivity).
  split; [exact Hh|]. split; [exact Hbs|].
  apply (C10_division_unguarded w sample_disk 5 1 (zeros 512) (zeros 1024)
           (zeros 4) (field 512 1024 image_zero_blocksize) w1).
  - reflexivity.
  - reflexivity.
  - lia.
  - exact Hh.
  - rewrite Hbs. lia.
Defined.

Lemma raise_errno_errno e w w' :
  grub_errno w' = grub_errno w ->
  grub_errno (raise_errno e w') = grub_errno (raise_errno e w).
Proof. intros H. destruct e; simpl; congruence. Qed.

(** The header decode on a file that cannot supply bytes [512, 1536): the
    read delivers fewer than 1024 bytes, and an error is on record after it
    only if the seek was refused (the file is shorter than 512 bytes), the
    file layer records one for a short read, or one was on record before. *)
Lemma header_read_short h hdr0 w f :
  open_files w !! h = Some f ->
  f_size f < 1536 ->
  exists got w1,
    header_read h hdr0 w = Returned (overwrite hdr0 got) w1
    /\ (length got < 1024)%nat
    /\ (f_size f < 512 -> grub_errno w1 <> GRUB_ERR_NONE)
    /\ (512 <= f_size f ->
        grub_errno w1 = grub_errno (raise_errno (short_read_errno w) w)).
Proof.
  intros Hf Hsz.
  destruct (grub_file_seek_open h 512 w f Hf) as (wa & Hseek & Hs1 & Hout & Hin).
  destruct (file_step_lookup _ _ _ _ _ Hs1 Hf) as (fa & Hfa & Hda).
  destruct (grub_file_read_open h hdr0 1024 wa fa Hfa)
    as (got & wb & Hread & Hs2 & _ & Hdata & Hgot).
  exists got, wb. unfold header_read.
  rewrite (bind_Returned _ _ _ _ _ Hseek). split; [exact Hread|].
  unfold f_size in *. rewrite Hda in Hdata.
  destruct (Z.lt_ge_cases (Z.of_nat (length (f_data f))) 512) as [Hlt|Hge].
  - split; [lia|]. split; [|lia]. intros _.
    apply (fs_errno _ _ _ _ Hs2). destruct (Hout Hlt) as [-> _]. done.
  - destruct (Hin Hge) as [Herr Hfa']. rewrite Hfa in Hfa'.
    injection Hfa' as ->. cbn [f_data f_offset] in Hgot.
    destruct (Hgot ltac:(lia)) as [Hg He].
    assert (Hlen : (length got < 1024)%nat).
    { rewrite Hg, length_take, length_drop. lia. }
    split; [exact Hlen|]. split; [lia|]. intros _. rewrite He.
    destruct (Z.ltb_spec (Z.of_nat (length got)) 1024) as [_|]; [|lia].
    rewrite (fs_short _ _ _ _ Hs1). apply raise_errno_errno, Herr.
Qed.

(** C4, as amended. On a backing file that cannot supply 1024 bytes from
    offset 512 the read does not stop at the header decode. It decodes the
    block size and the BAT offset from the header buffer as the short read
    left it (the bytes delivered, then what the buffer held before), and
    then either divides by zero, or makes the BAT lookup and the transfer
    all the same and returns what [grub_errno] holds at the end. That is an
    error whenever one is on record after the header decode: when the file
    is shorter than 512 bytes, when the file layer records an error for a
    short read, or when an error was already on record. *)
Theorem C4_truncated_header w disk s n buf hdr0 bp0 f :
  let h := file (data disk) in
  open_files w !! h = Some f ->
  f_size f < 1536 ->
  length hdr0 = 1024%nat -> length bp0 = 4%nat -> 0 <= s ->
  exists got w1,
    header_read h hdr0 w = Returned (overwrite hdr0 got) w1
    /\ (length got < 1024)%nat
    /\ (f_size f < 512 -> grub_errno w1 <> GRUB_ERR_NONE)
    /\ (512 <= f_size f ->
        grub_errno w1 = grub_errno (raise_errno (short_read_errno w) w))
    /\ let hdr := overwrite hdr0 got in
       let density := Z.shiftr (blockSize hdr) 9 in
       (density = 0 ->
        grub_vhd_read disk s n buf hdr0 bp0 w = Crashed DivideByZero w1)
       /\ (density <> 0 ->
           exists bpm e buf' w',
             grub_vhd_read disk s n buf hdr0 bp0 w = Returned (e, buf') w'
             /\ e = grub_errno w'
             /\ (grub_errno w1 <> GRUB_ERR_NONE -> e <> GRUB_ERR_NONE)
             /\ io_log w' =
                  io_log w ++
                    [EvSeek h 512; EvRead h 1024;
                     EvSeek h ((batOffset hdr + s / density * 4) mod 2 ^ 64);
                     EvRead h 4;
                     EvSeek h (((blockPointer bpm + 1) mod 2 ^ 32
                                + s mod density) * 512);
                     EvRead h (n * 512 mod 2 ^ 64)]).
Proof.
  intros h Hf Hsz Hl0 Hlb Hs.
  destruct (header_read_short h hdr0 w f Hf Hsz)
    as (got & w1 & Hh & Hlen & Herr1 & Herr2).
  exists got, w1. split; [exact Hh|]. split; [exact Hlen|].
  split; [exact Herr1|]. split; [exact Herr2|].
  intros hdr density.
  pose proof (blockSize_range hdr) as Hbs.
  assert (Hd : density = blockSize hdr / 512)
    by (subst density; rewrite Z.shiftr_div_pow2 by lia; reflexivity).
  destruct (grub_vhd_read_run disk s n buf hdr0 bp0 w hdr w1 Hh Hl0 Hlb Hs)
    as (_ & Hs1 & Hz & Hrun).
  fold h in Hs1, Hrun. rewrite <- Hd in Hz, Hrun. split; [exact Hz|].
  intros Hnz.
  destruct (Hrun Hnz) as (bpm & w2 & e & buf' & w' & _ & _ & Hs2 & Hr & He & Hs3).
  exists bpm, e, buf', w'. split; [exact Hr|]. split; [exact He|]. split.
  - intros H1. rewrite He.
    apply (fs_errno _ _ _ _ Hs3), (fs_errno _ _ _ _ Hs2), H1.
  - rewrite (fs_log _ _ _ _ Hs3), (fs_log _ _ _ _ Hs2), (fs_log _ _ _ _ Hs1).
    rewrite <- !app_assoc. reflexivity.
Qed.

Lemma C4_truncated_header_witness :
  let w := sample_world image_truncated GRUB_ERR_FILE_READ_ERROR in
  f_size {| f_data := image_truncated; f_offset := 0 |} = 1000
  /\ exists got w1,
       header_read 0 (zeros 1024) w = Returned (overwrite (zeros 1024) got) w1
       /\ (length got < 1024)%nat
       /\ grub_errno w1 = GRUB_ERR_FILE_READ_ERROR.
Proof.
  intros w.
  split; [vm_compute; reflexivity|].
  destruct (C4_truncated_header w sample_disk 0 1 (zeros 512) (zeros 1024)
              (zeros 4) {| f_data := image_truncated; f_offset := 0 |})
    as (got & w1 & Hh & Hlen & _ & Herr & _).
  - vm_compute. reflexivity.
  - vm_compute. reflexivity.
  - reflexivity.
  - reflexivity.
  - lia.
  - exists got, w1. split; [exact Hh|]. split; [exact Hlen|].
    apply Herr. vm_compute. discriminate.
Defined.

(** C4 as stated fails. (a) A 1000-byte file and a file layer that
    delivers short reads without recording an error: the read makes all
    six requests, fills the caller's buffer with what it finds at the
    offset it derived from the partial header, and returns success.
    (b) The same file and a file layer that records
    [GRUB_ERR_FILE_READ_ERROR] for a short read: the error is returned, but
    only after the BAT lookup and the transfer have been made. (c) A
    540-byte file, whose short read does not reach the block size field
    (zero in the header buffer beforehand): the read divides by zero. *)
Lemma C4_counterexample :
  f_size {| f_data := image_truncated; f_offset := 0 |} = 1000
  /\ grub_vhd_read sample_disk 0 1 (zeros 512) (zeros 1024) (zeros 4)
       (sample_world image_truncated GRUB_ERR_NONE)
     = Returned (GRUB_ERR_NONE, drop 512 image_truncated ++ zeros 24)
         (sample_world_after image_truncated GRUB_ERR_NONE GRUB_ERR_NONE 1000
            [EvSeek 0 512; EvRead 0 1024; EvSeek 0 0; EvRead 0 4;
             EvSeek 0 512; EvRead 0 512])
  /\ grub_vhd_read sample_disk 0 1 (zeros 512) (zeros 1024) (zeros 4)
       (sample_world image_truncated GRUB_ERR_FILE_READ_ERROR)
     = Returned (GRUB_ERR_FILE_READ_ERROR, drop 512 image_truncated ++ zeros 24)
         (sample_world_after image_truncated GRUB_ERR_FILE_READ_ERROR
            GRUB_ERR_FILE_READ_ERROR 1000
            [EvSeek 0 512; EvRead 0 1024; EvSeek 0 0; EvRead 0 4;
             EvSeek 0 512; EvRead 0 512])
  /\ grub_vhd_read sample_disk 0 1 (zeros 512) (zeros 1024) (zeros 4)
       (sample_world (take 540 image_truncated) GRUB_ERR_NONE)
     = Crashed DivideByZero
         (sample_world_after (take 540 image_truncated) GRUB_ERR_NONE
            GRUB_ERR_NONE 540 [EvSeek 0 512; EvRead 0 1024]).
Proof. repeat split; vm_compute; reflexivity. Qed.

(** * The write path (C5) *)

(** C5. Whatever the disk, the sector, the size and the buffer,
    [grub_vhd_write] returns [GRUB_ERR_NOT_IMPLEMENTED_YET]; the only
    thing it changes is the error on record: it makes no request to the
    file layer, and the open files with their contents and cursors, the
    stored files, the device list and the counter stay as they were. *)
Theorem C5_write_refused (disk : grub_disk) (sector size : Z) (buf : list byte)
    (w : world) :
  exists w',
    grub_vhd_write disk sector size buf w
      = Returned GRUB_ERR_NOT_IMPLEMENTED_YET w'
    /\ w' = set_errno GRUB_ERR_NOT_IMPLEMENTED_YET w
    /\ io_log w' = io_log w
    /\ open_files w' = open_files w
    /\ storage w' = storage w
    /\ vhd_list w' = vhd_list w
    /\ last_id w' = last_id w.
Proof.
  exists (set_errno GRUB_ERR_NOT_IMPLEMENTED_YET w). repeat split.
Qed.

(** * The registry (C2, C3, C6, C7, C8) *)

(** C6. Deleting a name that is not in the list returns
    [GRUB_ERR_BAD_DEVICE], through the command as through [delete_vhd];
    the list (so its length), the counter, the open files and the stored
    files are unchanged and no request is made to the file layer. *)
Theorem C6_delete_missing (name : string) (rest : list string) (w : world) :
  name ∉ names w ->
  exists w',
    delete_vhd name w = Returned GRUB_ERR_BAD_DEVICE w'
    /\ grub_cmd_vhd true (name :: rest) w = Returned GRUB_ERR_BAD_DEVICE w'
    /\ vhd_list w' = vhd_list w
    /\ length (vhd_list w') = length (vhd_list w)
    /\ last_id w' = last_id w
    /\ open_files w' = open_files w
    /\ storage w' = storage w
    /\ io_log w' = io_log w.
Proof.
  intros H. exists (set_errno GRUB_ERR_BAD_DEVICE w).
  rewrite grub_cmd_vhd_delete, delete_vhd_missing by exact H.
  repeat split.
Qed.

Lemma C6_delete_missing_witness :
  let w := sample_world image_small GRUB_ERR_NONE in
  ("cd" ∉ names w)
  /\ exists w',
       grub_cmd_vhd true ["cd"] w = Returned GRUB_ERR_BAD_DEVICE w'
       /\ vhd_list w' = [sample_dev].
Proof.
  intros w.
  assert (H : "cd" ∉ names w).
  { unfold names. simpl. rewrite not_elem_of_cons. split; [discriminate|].
    apply not_elem_of_nil. }
  split; [exact H|].
  destruct (C6_delete_missing "cd" [] w H) as (w' & _ & Hc & Hl & _).
  exists w'. split; [exact Hc|exact Hl].
Defined.

(** C2. In a reachable state that has a device named [name], adding
    [name] again with a file that opens returns success and leaves the
    list as it was except at that device: its record keeps its place, its
    name and its identity and now holds the handle just opened; the list
    has no other record of that name; the handle it held before has been
    closed; the counter is unchanged. *)
Theorem C2_add_existing (name path : string) (rest : list string)
    (bytes : list byte) (w : world) :
  reachable w ->
  name ∈ names w ->
  storage w !! path = Some bytes ->
  exists l1 old l2 h w',
    grub_cmd_vhd false (name :: path :: rest) w = Returned GRUB_ERR_NONE w'
    /\ vhd_list w = l1 ++ old :: l2
    /\ vhd_list w' = l1 ++ {| devname := name; file := h; id := id old |} :: l2
    /\ devname old = name
    /\ (name ∉ (devname <$> l1)) /\ (name ∉ (devname <$> l2))
    /\ open_files w !! h = None
    /\ open_files w' !! h = Some {| f_data := bytes; f_offset := 0 |}
    /\ is_Some (open_files w !! file old)
    /\ open_files w' !! file old = None
    /\ io_log w' = io_log w ++ [EvOpen path h; EvClose (file old)]
    /\ last_id w' = last_id w.
Proof.
  intros Hr Hin Hst.
  pose proof (reachable_registry_ok _ Hr) as Hok.
  destruct (vhd_find_elem _ _ Hin) as [old Hfind].
  destruct (vhd_find_Some _ _ _ Hfind) as (l1 & l2 & Hl & Hn & Hn1 & _ & Hs).
  assert (Hopen : is_Some (open_files w !! file old)).
  { apply (ok_open _ Hok). rewrite Hl, elem_of_app, elem_of_cons. tauto. }
  pose proof (fresh_handle_closed w) as Hc.
  set (h := fresh (dom (open_files w))) in *.
  assert (Hne : h <> file old).
  { intros E. rewrite E in Hc. destruct Hopen as [x Hx]. congruence. }
  eexists l1, old, l2, h, _. split.
  { apply (grub_cmd_vhd_replace _ _ _ _ _ _ Hfind Hst Hopen). }
  cbn [vhd_list open_files io_log last_id]. fold h.
  split; [exact Hl|]. split; [apply Hs|]. split; [exact Hn|].
  split; [exact Hn1|]. split.
  { pose proof (ok_names _ Hok) as Hnd. rewrite Hl in Hnd.
    apply NoDup_fmap_middle in Hnd. destruct Hnd as [Hnot _].
    rewrite Hn, fmap_app, elem_of_app in Hnot. tauto. }
  split; [exact Hc|]. split.
  { rewrite lookup_delete_ne, lookup_insert_eq by done. reflexivity. }
  split; [exact Hopen|]. split; [apply lookup_delete_eq|].
  split; reflexivity.
Qed.

Lemma C2_add_existing_witness :
  let w := sample_world image_small GRUB_ERR_NONE in
  reachable w
  /\ ("hd" ∈ names w)
  /\ exists h w',
       grub_cmd_vhd false ["hd"; "f"] w = Returned GRUB_ERR_NONE w'
       /\ vhd_list w' = [{| devname := "hd"; file := h; id := 0 |}]
       /\ open_files w' !! 0%nat = None.
Proof.
  intros w.
  assert (Hr : reachable w).
  { eapply reachable_step.
    - apply (reachable_initial
               (empty_world {[ "f" := image_small ]} [] GRUB_ERR_NONE)).
      split; reflexivity.
    - eapply (step_cmd false ["hd"; "f"]). vm_compute. reflexivity. }
  assert (Hin : "hd" ∈ names w) by (unfold names; simpl; apply elem_of_cons; left; reflexivity).
  split; [exact Hr|]. split; [exact Hin|].
  destruct (C2_add_existing "hd" "f" [] image_small w Hr Hin)
    as (l1 & old & l2 & h & w' & Hc & Hl & Hl' & Hn & _ & _ & _ & _ & _ & Hcl & _).
  - reflexivity.
  - exists h, w'. split; [exact Hc|].
    destruct l1 as [|d l1]; simpl in Hl.
    + injection Hl as <- <-. split; [exact Hl'|exact Hcl].
    + injection Hl as _ Hl. destruct l1; discriminate.
Defined.

(** C3. When the name is new, the file opens, and the allocation of the
    record or the duplication of the name fails, the command returns the
    allocator's error; the file it had opened has been closed again, so
    the open files are as before, and the list and the counter are as
    before. *)
Theorem C3_add_alloc_failure (name path : string) (rest : list string)
    (bytes : list byte) (w : world) :
  name ∉ names w ->
  storage w !! path = Some bytes ->
  (exists plan, alloc_plan w = false :: plan)
  \/ (exists plan, alloc_plan w = true :: false :: plan) ->
  exists h w',
    grub_cmd_vhd false (name :: path :: rest) w
      = Returned GRUB_ERR_OUT_OF_MEMORY w'
    /\ grub_errno w' = GRUB_ERR_OUT_OF_MEMORY
    /\ open_files w !! h = None
    /\ io_log w' = io_log w ++ [EvOpen path h; EvClose h]
    /\ open_files w' = open_files w
    /\ vhd_list w' = vhd_list w
    /\ last_id w' = last_id w
    /\ storage w' = storage w.
Proof.
  intros Hnew Hst Hplan.
  pose proof (grub_cmd_vhd_create name path rest w bytes Hnew Hst) as H.
  cbv zeta in H. exists (fresh (dom (open_files w))).
  destruct Hplan as [[plan Hp]|[plan Hp]]; rewrite Hp in H;
    cbn [alloc_outcome fst snd andb] in H;
    (eexists; split; [exact H|]);
    cbn [grub_errno open_files io_log vhd_list last_id storage];
    repeat split; apply fresh_handle_closed.
Qed.

Lemma C3_add_alloc_failure_witness :
  let w := empty_world {[ "f" := image_small ]} [true; false] GRUB_ERR_NONE in
  exists h w',
    grub_cmd_vhd false ["hd"; "f"] w = Returned GRUB_ERR_OUT_OF_MEMORY w'
    /\ io_log w' = [EvOpen "f" h; EvClose h]
    /\ open_files w' = ∅
    /\ vhd_list w' = []
    /\ last_id w' = 0.
Proof.
  intros w.
  destruct (C3_add_alloc_failure "hd" "f" [] image_small w)
    as (h & w' & Hc & _ & _ & Hlog & Ho & Hl & Hi & _).
  - apply not_elem_of_nil.
  - reflexivity.
  - right. exists []. reflexivity.
  - exists h, w'. repeat split; assumption.
Defined.

(** C7. From an empty list, after adding ["a"], ["b"] and ["c"] and
    deleting ["b"], the list holds ["c"] then ["a"]. In the pull mode
    [GRUB_DISK_PULL_NONE] the hook is called on ["c"]; if it returns nonzero
    the iteration stops and returns 1; otherwise the hook is called on
    ["a"], and the iteration returns 1 if that call returns nonzero and 0
    if not. The hook is called on no other name and on no name twice. In
    every other pull mode the hook is not called and the result is 0. The
    world is unchanged either way. *)
Theorem C7_iterate_after_delete (w0 w1 w2 w3 w4 : world) (pa pb pc : string) :
  vhd_list w0 = [] ->
  grub_cmd_vhd false ["a"; pa] w0 = Returned GRUB_ERR_NONE w1 ->
  grub_cmd_vhd false ["b"; pb] w1 = Returned GRUB_ERR_NONE w2 ->
  grub_cmd_vhd false ["c"; pc] w2 = Returned GRUB_ERR_NONE w3 ->
  grub_cmd_vhd true ["b"] w3 = Returned GRUB_ERR_NONE w4 ->
  names w4 = ["c"; "a"]
  /\ forall (D : Type) (hook : string -> D -> Z * D) (hook_data : D),
       grub_vhd_iterate hook hook_data GRUB_DISK_PULL_NONE w4
       = Returned
           (let (r1, d1) := hook "c" hook_data in
            if r1 =? 0
            then let (r2, d2) := hook "a" d1 in
                 if r2 =? 0 then (0, d2) else (1, d2)
            else (1, d1))
           w4
       /\ forall pull, pull <> GRUB_DISK_PULL_NONE ->
            grub_vhd_iterate hook hook_data pull w4 = Returned (0, hook_data) w4.
Proof.
  intros H0 Ha Hb Hc Hd.
  apply grub_cmd_vhd_added in Ha as (ha & Ha & _);
    [|unfold names; rewrite H0; apply not_elem_of_nil].
  rewrite H0 in Ha.
  apply grub_cmd_vhd_added in Hb as (hb & Hb & _).
  2:{ unfold names. rewrite Ha. simpl. rewrite not_elem_of_cons.
      split; [discriminate|apply not_elem_of_nil]. }
  rewrite Ha in Hb.
  apply grub_cmd_vhd_added in Hc as (hc & Hc & _).
  2:{ unfold names. rewrite Hb. simpl. rewrite !not_elem_of_cons.
      repeat split; try discriminate. apply not_elem_of_nil. }
  rewrite Hb in Hc.
  rewrite grub_cmd_vhd_delete in Hd. apply delete_vhd_result in Hd as [Hd _].
  rewrite Hc in Hd. cbn [vhd_unlink devname] in Hd.
  change (grub_strcmp "c" "b") with 1 in Hd.
  change (grub_strcmp "b" "b") with 0 in Hd. cbn in Hd.
  split; [unfold names; rewrite Hd; reflexivity|].
  intros D hook hook_data. split.
  - unfold grub_vhd_iterate.
    destruct (decide (GRUB_DISK_PULL_NONE <> GRUB_DISK_PULL_NONE)) as [Hne|_];
      [contradiction|].
    run_world. rewrite Hd. cbn.
    destruct (hook "c" hook_data) as [r1 d1]. destruct (r1 =? 0); [|reflexivity].
    destruct (hook "a" d1) as [r2 d2]. destruct (r2 =? 0); reflexivity.
  - intros pull Hp. unfold grub_vhd_iterate.
    destruct (decide (pull <> GRUB_DISK_PULL_NONE)); [reflexivity|contradiction].
Qed.

Lemma C7_iterate_after_delete_witness :
  let w0 := empty_world {[ "f" := image_small ]} [] GRUB_ERR_NONE in
  let w1 := world_of (grub_cmd_vhd false ["a"; "f"] w0) in
  let w2 := world_of (grub_cmd_vhd false ["b"; "f"] w1) in
  let w3 := world_of (grub_cmd_vhd false ["c"; "f"] w2) in
  let w4 := world_of (grub_cmd_vhd true ["b"] w3) in
  grub_cmd_vhd true ["b"] w3 = Returned GRUB_ERR_NONE w4
  /\ names w4 = ["c"; "a"]
  /\ grub_vhd_iterate (recording_hook (fun _ => false)) [] GRUB_DISK_PULL_NONE w4
     = Returned (0, ["c"; "a"]) w4
  /\ grub_vhd_iterate (recording_hook (String.eqb "c")) [] GRUB_DISK_PULL_NONE w4
     = Returned (1, ["c"]) w4
  /\ grub_vhd_iterate (recording_hook (fun _ => false)) [] GRUB_DISK_PULL_REMOVABLE w4
     = Returned (0, []) w4.
Proof.
  intros w0 w1 w2 w3 w4.
  assert (Hd : grub_cmd_vhd true ["b"] w3 = Returned GRUB_ERR_NONE w4)
    by (vm_compute; reflexivity).
  destruct (C7_iterate_after_delete w0 w1 w2 w3 w4 "f" "f" "f") as [Hn Hit].
  - reflexivity.
  - vm_compute. reflexivity.
  - vm_compute. reflexivity.
  - vm_compute. reflexivity.
  - exact Hd.
  - split; [exact Hd|]. split; [exact Hn|].
    destruct (Hit _ (recording_hook (fun _ => false)) []) as [H1 H2].
    destruct (Hit _ (recording_hook (String.eqb "c")) []) as [H3 _].
    split; [exact H1|]. split; [exact H3|]. apply H2. discriminate.
Defined.

(** ** Identities *)

Lemma ulong_range (x : Z) : 0 <= ulong x < 2 ^ ULONG_BITS.
Proof. unfold ulong. apply Z.mod_pos_bound. unfold ULONG_BITS. lia. Qed.

Lemma ulong_small (x : Z) : 0 <= x < 2 ^ ULONG_BITS -> ulong x = x.
Proof. apply Z.mod_small. Qed.

(** Each creation gives the counter's value to the record it prepends and
    steps the counter; the counter at the [k]-th creation of a run is the
    initial one plus [k], wrapped. *)
Lemma creations_spec cmds : forall w,
  0 <= last_id w < 2 ^ ULONG_BITS ->
  Forall (fun c => exists dev, c_list' c = dev :: c_list c
                               /\ id dev = c_counter c
                               /\ c_counter' c = ulong (c_counter c + 1))
         (creations cmds w)
  /\ forall k c, creations cmds w !! k = Some c ->
                 c_counter c = ulong (last_id w + Z.of_nat k).
Proof.
  induction cmds as [|[del args] cmds IH]; intros w Hr; cbn [creations].
  { split; [constructor|]. intros k c H. rewrite lookup_nil in H. discriminate. }
  destruct (grub_cmd_vhd del args w) as [e w'|] eqn:Hc.
  2:{ split; [constructor|]. intros k c H. rewrite lookup_nil in H. discriminate. }
  pose proof (grub_cmd_vhd_counter _ _ _ _ _ Hc) as Hk.
  destruct (adds_new_name del args w && bool_decide (e = GRUB_ERR_NONE)).
  - destruct Hk as (dev & Hl & Hid & Hi).
    destruct (IH w') as [IH1 IH2]; [rewrite Hi; apply ulong_range|].
    split.
    + constructor; [|exact IH1]. exists dev. cbn. auto.
    + intros [|k] c; cbn.
      * intros [= <-]. cbn. rewrite Z.add_0_r, ulong_small; done.
      * intros H. rewrite (IH2 k c H), Hi. unfold ulong.
        rewrite Zplus_mod_idemp_l. f_equal. lia.
  - cbn. rewrite <- Hk. apply IH. rewrite Hk. exact Hr.
Qed.

Lemma created_ids_counters cmds w :
  0 <= last_id w < 2 ^ ULONG_BITS ->
  created_ids cmds w = c_counter <$> creations cmds w.
Proof.
  intros Hr. destruct (creations_spec cmds w Hr) as [H _].
  unfold created_ids. induction H as [|c l (dev & Hl & Hid & _) _ IH]; [done|].
  cbn. unfold c_id at 1. rewrite Hl. cbn. rewrite Hid, IH. reflexivity.
Qed.

Lemma created_ids_lookup cmds w k a :
  0 <= last_id w < 2 ^ ULONG_BITS ->
  created_ids cmds w !! k = Some a -> a = ulong (last_id w + Z.of_nat k).
Proof.
  intros Hr. rewrite created_ids_counters, list_lookup_fmap by exact Hr.
  destruct (creations cmds w !! k) as [c|] eqn:Hc; [|discriminate].
  intros [= <-]. apply (proj2 (creations_spec cmds w Hr) k c Hc).
Qed.

(** C8, as amended. In every run of commands, each successful add of a new
    name prepends a record that carries the value the counter had, and
    leaves the counter one higher, wrapped to the width of
    [unsigned long]; nothing else moves the counter, so the [k]-th
    identity given out is the initial counter plus [k], wrapped. As long
    as the counter has not wrapped, identities grow strictly from one
    creation to the next, whatever was deleted in between, and none is
    given twice. *)
Theorem C8_identities (cmds : list (bool * list string)) (w : world) :
  0 <= last_id w < 2 ^ ULONG_BITS ->
  Forall (fun c => exists dev, c_list' c = dev :: c_list c
                               /\ id dev = c_counter c
                               /\ c_counter' c = (c_counter c + 1) mod 2 ^ ULONG_BITS)
         (creations cmds w)
  /\ length (created_ids cmds w) = length (creations cmds w)
  /\ (forall k a, created_ids cmds w !! k = Some a ->
                  a = (last_id w + Z.of_nat k) mod 2 ^ ULONG_BITS)
  /\ (last_id w + Z.of_nat (length (creations cmds w)) <= 2 ^ ULONG_BITS ->
      forall i j a b, (i < j)%nat ->
        created_ids cmds w !! i = Some a ->
        created_ids cmds w !! j = Some b ->
        a < b).
Proof.
  intros Hr. split; [apply (creations_spec cmds w Hr)|].
  assert (Hlen : length (created_ids cmds w) = length (creations cmds w))
    by (rewrite created_ids_counters, length_fmap by exact Hr; reflexivity).
  split; [exact Hlen|]. split.
  - intros k a H. apply (created_ids_lookup cmds w k a Hr H).
  - intros Hno i j a b Hij Ha Hb.
    pose proof (lookup_lt_Some _ _ _ Hb) as Hj. rewrite Hlen in Hj.
    apply (created_ids_lookup _ _ _ _ Hr) in Ha, Hb.
    rewrite ulong_small in Ha, Hb by lia. lia.
Qed.

Lemma C8_identities_witness :
  let w0 := empty_world {[ "f" := image_small ]} [] GRUB_ERR_NONE in
  let cmds := [(false, ["a"; "f"]); (false, ["b"; "f"]); (true, ["a"]);
               (false, ["c"; "f"]); (false, ["b"; "f"])] in
  initial w0
  /\ created_ids cmds w0 = [0; 1; 2]
  /\ forall i j a b, (i < j)%nat ->
       created_ids cmds w0 !! i = Some a ->
       created_ids cmds w0 !! j = Some b ->
       a < b.
Proof.
  intros w0 cmds. split; [split; reflexivity|].
  split; [vm_compute; reflexivity|].
  apply (C8_identities cmds w0).
  - vm_compute. split; [discriminate|reflexivity].
  - vm_compute. discriminate.
Defined.

(** One add-and-delete cycle in a world with no device, where the file
    ["f"] exists and every allocation succeeds, makes one creation and
    leaves such a world again. *)
Lemma add_delete_cycles_creations (n : nat) : forall w,
  vhd_list w = [] ->
  is_Some (storage w !! "f") ->
  alloc_plan w = [] ->
  length (creations (add_delete_cycles n) w) = n.
Proof.
  induction n as [|n IH]; intros w Hl [bytes Hst] Hp; [reflexivity|].
  assert (Hnew : "d" ∉ names w)
    by (unfold names; rewrite Hl; apply not_elem_of_nil).
  pose proof (grub_cmd_vhd_create "d" "f" [] w bytes Hnew Hst) as Hadd.
  cbv zeta in Hadd. rewrite Hp in Hadd. cbn [alloc_outcome fst snd andb] in Hadd.
  cbn [add_delete_cycles creations]. rewrite Hadd.
  cbn [adds_new_name]. rewrite bool_decide_eq_true_2 by exact Hnew.
  rewrite bool_decide_eq_true_2 by reflexivity. cbn [andb app length].
  f_equal.
  match goal with |- context [grub_cmd_vhd true ["d"] ?w1] => set (w1' := w1) end.
  assert (Hfind : vhd_find "d" (vhd_list w1')
                  = Some {| devname := "d";
                            file := fresh (dom (open_files w));
                            id := last_id w |})
    by (subst w1'; cbn [vhd_list]; rewrite Hl; reflexivity).
  rewrite grub_cmd_vhd_delete, (delete_vhd_found _ _ _ Hfind).
  2:{ subst w1'. cbn [open_files file]. rewrite lookup_insert_eq. eauto. }
  cbn [andb app]. apply IH.
  - subst w1'. cbn [vhd_list set_open_files log_io set_vhd_list]. rewrite Hl.
    reflexivity.
  - subst w1'. cbn. eauto.
  - subst w1'. reflexivity.
Qed.

(** After [N] cycles with [N = 2^64] the counter is back where it was: the
    creation of cycle [N + 1] is given the identity of the first one. *)
Lemma add_delete_cycles_wrap (N : nat) (bytes : list byte) :
  Z.of_nat N = 2 ^ ULONG_BITS ->
  let w0 := empty_world {[ "f" := bytes ]} [] GRUB_ERR_NONE in
  created_ids (add_delete_cycles (S N)) w0 !! 0%nat = Some 0
  /\ created_ids (add_delete_cycles (S N)) w0 !! N = Some 0.
Proof.
  intros HN w0.
  assert (Hr : 0 <= last_id w0 < 2 ^ ULONG_BITS)
    by (unfold ULONG_BITS; cbn; lia).
  assert (Hlen : length (created_ids (add_delete_cycles (S N)) w0) = S N).
  { rewrite created_ids_counters, length_fmap by exact Hr.
    apply add_delete_cycles_creations; [reflexivity| |reflexivity].
    unfold w0. cbn [storage empty_world]. rewrite lookup_singleton_eq. eauto. }
  assert (Hk : forall k, (k < S N)%nat ->
                 created_ids (add_delete_cycles (S N)) w0 !! k
                 = Some (ulong (Z.of_nat k))).
  { intros k Hlt. rewrite <- Hlen in Hlt.
    destruct (lookup_lt_is_Some_2 _ _ Hlt) as [a Ha].
    rewrite Ha. f_equal. apply (created_ids_lookup _ _ _ _ Hr Ha). }
  split.
  - rewrite Hk by lia. reflexivity.
  - rewrite Hk by lia. f_equal. rewrite HN. unfold ulong.
    apply Z.mod_same. unfold ULONG_BITS. lia.
Qed.

(** C8 as stated fails on a long enough run: from the initial state, with
    the counter at 0, [2^64 + 1] cycles of adding and deleting ["d"] make
    [2^64 + 1] creations, and the last is given the identity 0 that the
    first was given. *)
Lemma C8_counterexample :
  let w0 := empty_world {[ "f" := [] ]} [] GRUB_ERR_NONE in
  let cmds := add_delete_cycles (S (Z.to_nat (2 ^ ULONG_BITS))) in
  initial w0
  /\ created_ids cmds w0 !! 0%nat = Some 0
  /\ created_ids cmds w0 !! Z.to_nat (2 ^ ULONG_BITS) = Some 0.
Proof.
  split; [split; reflexivity|].
  apply (add_delete_cycles_wrap (Z.to_nat (2 ^ ULONG_BITS)) []).
  apply Z2Nat.id. unfold ULONG_BITS. lia.
Qed.

(** * Further properties of vhd.c *)

(** ** What one [vhd] command does to the list and to the open files *)

Lemma vhd_find_middle (name : string) (l1 l2 : list grub_vhd) (dev : grub_vhd) :
  name ∉ (devname <$> l1) -> devname dev = name ->
  vhd_find name (l1 ++ dev :: l2) = Some dev.
Proof.
  intros Hnot Hn. induction l1 as [|d l1 IH]; simpl.
  - rewrite (proj2 (grub_strcmp_eq _ _) Hn). reflexivity.
  - rewrite fmap_cons, not_elem_of_cons in Hnot. destruct Hnot as [Hne Hnot].
    destruct (Z.eqb_spec (grub_strcmp (devname d) name) 0) as [E|_].
    + apply grub_strcmp_eq in E. congruence.
    + apply IH, Hnot.
Qed.

Lemma grub_cmd_vhd_effect del args w e w' :
  registry_ok w ->
  grub_cmd_vhd del args w = Returned e w' ->
  cmd_effect w w' e.
Proof.
  intros Hok H. destruct args as [|name rest].
  { rewrite grub_cmd_vhd_no_name in H. injection H as <- <-.
    apply effect_none; done. }
  destruct del.
  { rewrite grub_cmd_vhd_delete in H.
    destruct (vhd_find name (vhd_list w)) as [dev|] eqn:Hfind.
    - destruct (vhd_find_Some _ _ _ Hfind) as (l1 & l2 & Hl & Hn & Hn1 & Hu & _).
      rewrite (delete_vhd_found _ _ _ Hfind) in H.
      + injection H as <- <-.
        eapply (effect_deleted _ _ _ name dev l1 l2); try done.
      + apply (ok_open _ Hok). rewrite Hl, elem_of_app, elem_of_cons. tauto.
    - apply vhd_find_None in Hfind. rewrite delete_vhd_missing in H by done.
      injection H as <- <-. apply effect_none; done. }
  destruct rest as [|path rest].
  { rewrite grub_cmd_vhd_no_file in H. injection H as <- <-.
    apply effect_none; done. }
  destruct (storage w !! path) as [bytes|] eqn:Hst.
  2:{ rewrite grub_cmd_vhd_open_failed in H by done. injection H as <- <-.
      apply effect_none; done. }
  destruct (vhd_find name (vhd_list w)) as [old|] eqn:Hfind.
  - destruct (vhd_find_Some _ _ _ Hfind) as (l1 & l2 & Hl & Hn & Hn1 & _ & Hs).
    rewrite (grub_cmd_vhd_replace _ _ _ _ _ _ Hfind Hst) in H.
    + injection H as <- <-.
      eapply (effect_replaced _ _ _ name _ _ old l1 l2); try done.
      * apply fresh_handle_closed.
      * apply Hs.
    + apply (ok_open _ Hok). rewrite Hl, elem_of_app, elem_of_cons. tauto.
  - apply vhd_find_None in Hfind.
    rewrite (grub_cmd_vhd_create _ _ _ _ _ Hfind Hst) in H.
    destruct (_ && _); injection H as <- <-.
    + eapply (effect_created _ _ _ name); try done. apply fresh_handle_closed.
    + apply effect_none; done.
Qed.

(** ** Opening a disk *)

(** [grub_vhd_open] on a name that is not in the list fails with
    [GRUB_ERR_UNKNOWN_DEVICE], hands out no disk, and adds no device: the
    list, the counter and the open files are as before and no request is
    made to the file layer. *)
Theorem open_unknown_device (cache_bits size_unknown : Z) (name : string)
    (w : world) :
  name ∉ names w ->
  exists w',
    grub_vhd_open cache_bits size_unknown name w
      = Returned (GRUB_ERR_UNKNOWN_DEVICE, None) w'
    /\ grub_errno w' = GRUB_ERR_UNKNOWN_DEVICE
    /\ vhd_list w' = vhd_list w
    /\ last_id w' = last_id w
    /\ open_files w' = open_files w
    /\ io_log w' = io_log w.
Proof.
  intros H. apply vhd_find_None in H.
  exists (set_errno GRUB_ERR_UNKNOWN_DEVICE w).
  unfold grub_vhd_open, grub_error. run_world. rewrite H. repeat split.
Qed.

Lemma open_unknown_device_witness :
  let w := sample_world image_small GRUB_ERR_NONE in
  ("cd" ∉ names w)
  /\ exists w',
       grub_vhd_open 6 (2 ^ 64 - 1) "cd" w
         = Returned (GRUB_ERR_UNKNOWN_DEVICE, None) w'
       /\ vhd_list w' = [sample_dev].
Proof.
  intros w.
  assert (H : "cd" ∉ names w).
  { unfold names. simpl. rewrite not_elem_of_cons. split; [discriminate|].
    apply not_elem_of_nil. }
  split; [exact H|].
  destruct (open_unknown_device 6 (2 ^ 64 - 1) "cd" w H)
    as (w' & Ho & _ & Hl & _).
  exists w'. split; [exact Ho|exact Hl].
Defined.

(** In a reachable state [grub_vhd_open] on a registered name succeeds and
    changes nothing. The disk it fills in points to the one record of that
    name, carries that record's identity, reports the size as unknown and
    [1 << (20 - GRUB_DISK_CACHE_BITS)] as the largest transfer; the
    record's backing file is open. *)
Theorem open_registered_device (cache_bits size_unknown : Z) (name : string)
    (w : world) :
  reachable w ->
  name ∈ names w ->
  exists disk,
    grub_vhd_open cache_bits size_unknown name w
      = Returned (GRUB_ERR_NONE, Some disk) w
    /\ data disk ∈ vhd_list w
    /\ devname (data disk) = name
    /\ (forall dev, dev ∈ vhd_list w -> devname dev = name -> dev = data disk)
    /\ disk_id disk = id (data disk)
    /\ total_sectors disk = size_unknown
    /\ max_agglomerate disk = Z.shiftl 1 (20 - cache_bits)
    /\ is_Some (open_files w !! file (data disk)).
Proof.
  intros Hr Hin. pose proof (reachable_registry_ok _ Hr) as Hok.
  destruct (vhd_find_elem _ _ Hin) as [dev Hfind].
  destruct (vhd_find_Some _ _ _ Hfind) as (l1 & l2 & Hl & Hn & Hn1 & _).
  assert (Hdev : dev ∈ vhd_list w)
    by (rewrite Hl, elem_of_app, elem_of_cons; tauto).
  eexists. split.
  { unfold grub_vhd_open. run_world. rewrite Hfind. reflexivity. }
  cbn [data disk_id total_sectors max_agglomerate].
  split; [exact Hdev|]. split; [exact Hn|]. split.
  { intros d Hd Hdn. pose proof (ok_names _ Hok) as Hnd. rewrite Hl in Hnd, Hd.
    apply NoDup_fmap_middle in Hnd. destruct Hnd as [Hnot _].
    rewrite elem_of_app, elem_of_cons in Hd. destruct Hd as [Hd|[->|Hd]].
    - exfalso. apply Hnot. rewrite Hn, <- Hdn. apply list_elem_of_fmap_2.
      rewrite elem_of_app. tauto.
    - reflexivity.
    - exfalso. apply Hnot. rewrite Hn, <- Hdn. apply list_elem_of_fmap_2.
      rewrite elem_of_app. tauto. }
  split; [reflexivity|]. split; [reflexivity|]. split.
  - unfold GRUB_DISK_SECTOR_BITS. f_equal; lia.
  - apply (ok_open _ Hok), Hdev.
Qed.

Lemma open_registered_device_witness :
  let w := sample_world image_small GRUB_ERR_NONE in
  reachable w
  /\ ("hd" ∈ names w)
  /\ exists disk,
       grub_vhd_open 6 (2 ^ 64 - 1) "hd" w = Returned (GRUB_ERR_NONE, Some disk) w
       /\ data disk = sample_dev
       /\ max_agglomerate disk = 16384.
Proof.
  intros w.
  assert (Hr : reachable w).
  { eapply reachable_step.
    - apply (reachable_initial
               (empty_world {[ "f" := image_small ]} [] GRUB_ERR_NONE)).
      split; reflexivity.
    - eapply (step_cmd false ["hd"; "f"]). vm_compute. reflexivity. }
  assert (Hin : "hd" ∈ names w)
    by (unfold names; simpl; apply elem_of_cons; left; reflexivity).
  split; [exact Hr|]. split; [exact Hin|].
  destruct (open_registered_device 6 (2 ^ 64 - 1) "hd" w Hr Hin)
    as (disk & Ho & Hd & _ & _ & _ & _ & Hm & _).
  exists disk. split; [exact Ho|]. split; [|exact Hm].
  apply list_elem_of_singleton in Hd. exact Hd.
Defined.

(** An add that succeeds is seen by the next open. After a successful
    [vhd name path] in a reachable state, [grub_vhd_open name] hands out a
    disk on a record whose backing file holds the contents of [path] with
    the cursor at 0. Its identity is the one the device of that name had
    before, if there was one, and the value of the counter before the
    command if the name is new. *)
Theorem add_then_open (cache_bits size_unknown : Z) (name path : string)
    (rest : list string) (bytes : list byte) (w w' : world) :
  reachable w ->
  storage w !! path = Some bytes ->
  grub_cmd_vhd false (name :: path :: rest) w = Returned GRUB_ERR_NONE w' ->
  exists disk,
    grub_vhd_open cache_bits size_unknown name w'
      = Returned (GRUB_ERR_NONE, Some disk) w'
    /\ devname (data disk) = name
    /\ open_files w' !! file (data disk)
       = Some {| f_data := bytes; f_offset := 0 |}
    /\ disk_id disk = match vhd_find name (vhd_list w) with
                      | Some old => id old
                      | None => last_id w
                      end.
Proof.
  intros Hr Hst H. pose proof (reachable_registry_ok _ Hr) as Hok.
  pose proof (fresh_handle_closed w) as Hc.
  destruct (vhd_find name (vhd_list w)) as [old|] eqn:Hfind.
  - destruct (vhd_find_Some _ _ _ Hfind) as (l1 & l2 & Hl & Hn & Hn1 & _ & Hs).
    assert (Hopen : is_Some (open_files w !! file old)).
    { apply (ok_open _ Hok). rewrite Hl, elem_of_app, elem_of_cons. tauto. }
    rewrite (grub_cmd_vhd_replace _ _ _ _ _ _ Hfind Hst Hopen) in H.
    injection H as <-. eexists. split.
    { unfold grub_vhd_open. run_world. rewrite Hs.
      rewrite (vhd_find_middle name l1 l2 _ Hn1) by reflexivity. reflexivity. }
    cbn [data disk_id devname file id open_files].
    split; [reflexivity|]. split; [|reflexivity].
    rewrite lookup_delete_ne, lookup_insert_eq; [reflexivity|].
    intros E. destruct Hopen as [x Hx]. rewrite E in Hx. congruence.
  - apply vhd_find_None in Hfind.
    rewrite (grub_cmd_vhd_create _ _ _ _ _ Hfind Hst) in H.
    destruct (_ && _); [|discriminate]. injection H as <-. eexists. split.
    { unfold grub_vhd_open. run_world. cbn [vhd_find devname].
      rewrite (proj2 (grub_strcmp_eq name name) eq_refl). reflexivity. }
    cbn [data disk_id devname file id open_files].
    split; [reflexivity|]. split; [|reflexivity]. apply lookup_insert_eq.
Qed.

Lemma add_then_open_witness :
  let w := sample_world image_small GRUB_ERR_NONE in
  let w' := world_of (grub_cmd_vhd false ["hd"; "f"] w) in
  reachable w
  /\ grub_cmd_vhd false ["hd"; "f"] w = Returned GRUB_ERR_NONE w'
  /\ exists disk,
       grub_vhd_open 6 (2 ^ 64 - 1) "hd" w'
         = Returned (GRUB_ERR_NONE, Some disk) w'
       /\ disk_id disk = 0.
Proof.
  intros w w'.
  assert (Hr : reachable w).
  { eapply reachable_step.
    - apply (reachable_initial
               (empty_world {[ "f" := image_small ]} [] GRUB_ERR_NONE)).
      split; reflexivity.
    - eapply (step_cmd false ["hd"; "f"]). vm_compute. reflexivity. }
  assert (Hc : grub_cmd_vhd false ["hd"; "f"] w = Returned GRUB_ERR_NONE w')
    by (vm_compute; reflexivity).
  split; [exact Hr|]. split; [exact Hc|].
  destruct (add_then_open 6 (2 ^ 64 - 1) "hd" "f" [] image_small w w' Hr)
    as (disk & Ho & _ & _ & Hid).
  - reflexivity.
  - exact Hc.
  - exists disk. split; [exact Ho|exact Hid].
Defined.

(** ** Deleting a device *)

(** In a reachable state, deleting a registered name succeeds: the one
    record of that name leaves the list and the others keep their order,
    its backing file is closed by one close request and every other
    device's file stays open, the counter and the error on record are
    untouched. The name is unknown afterwards: opening it fails with
    [GRUB_ERR_UNKNOWN_DEVICE] and deleting it again with
    [GRUB_ERR_BAD_DEVICE]. *)
Theorem delete_registered_device (cache_bits size_unknown : Z) (name : string)
    (rest : list string) (w : world) :
  reachable w ->
  name ∈ names w ->
  exists l1 dev l2 w',
    grub_cmd_vhd true (name :: rest) w = Returned GRUB_ERR_NONE w'
    /\ vhd_list w = l1 ++ dev :: l2
    /\ devname dev = name
    /\ vhd_list w' = l1 ++ l2
    /\ (name ∉ names w')
    /\ is_Some (open_files w !! file dev)
    /\ open_files w' = delete (file dev) (open_files w)
    /\ (forall d, d ∈ vhd_list w' -> open_files w' !! file d = open_files w !! file d)
    /\ io_log w' = io_log w ++ [EvClose (file dev)]
    /\ last_id w' = last_id w
    /\ grub_errno w' = grub_errno w
    /\ (exists w'', grub_vhd_open cache_bits size_unknown name w'
                    = Returned (GRUB_ERR_UNKNOWN_DEVICE, None) w'')
    /\ (exists w'', grub_cmd_vhd true (name :: rest) w'
                    = Returned GRUB_ERR_BAD_DEVICE w'').
Proof.
  intros Hr Hin. pose proof (reachable_registry_ok _ Hr) as Hok.
  destruct (vhd_find_elem _ _ Hin) as [dev Hfind].
  destruct (vhd_find_Some _ _ _ Hfind) as (l1 & l2 & Hl & Hn & Hn1 & Hu & _).
  assert (Hopen : is_Some (open_files w !! file dev)).
  { apply (ok_open _ Hok). rewrite Hl, elem_of_app, elem_of_cons. tauto. }
  pose proof (ok_names _ Hok) as Hnd. pose proof (ok_files _ Hok) as Hfd.
  rewrite Hl in Hnd, Hfd. apply NoDup_fmap_middle in Hnd, Hfd.
  destruct Hnd as [Hnot _]. destruct Hfd as [Hfnot _].
  eexists l1, dev, l2, _. split.
  { rewrite grub_cmd_vhd_delete. apply (delete_vhd_found _ _ _ Hfind Hopen). }
  set (w' := set_open_files _ _).
  assert (Hl' : vhd_list w' = l1 ++ l2) by (subst w'; cbn; exact Hu).
  assert (Hgone : name ∉ names w')
    by (unfold names; rewrite Hl', <- Hn; exact Hnot).
  split; [exact Hl|]. split; [exact Hn|]. split; [exact Hl'|].
  split; [exact Hgone|]. split; [exact Hopen|]. split; [reflexivity|].
  split.
  { intros d Hd. rewrite Hl' in Hd. subst w'. cbn [open_files set_open_files].
    apply lookup_delete_ne. intros E. apply Hfnot. rewrite E.
    apply list_elem_of_fmap_2, Hd. }
  split; [reflexivity|]. split; [reflexivity|]. split; [reflexivity|].
  split.
  - eexists. unfold grub_vhd_open, grub_error. run_world.
    rewrite (proj2 (vhd_find_None _ _) Hgone). reflexivity.
  - eexists. rewrite grub_cmd_vhd_delete. apply delete_vhd_missing, Hgone.
Qed.

Lemma delete_registered_device_witness :
  let w := sample_world image_small GRUB_ERR_NONE in
  reachable w
  /\ ("hd" ∈ names w)
  /\ exists w',
       grub_cmd_vhd true ["hd"] w = Returned GRUB_ERR_NONE w'
       /\ vhd_list w' = []
       /\ open_files w' = ∅.
Proof.
  intros w.
  assert (Hr : reachable w).
  { eapply reachable_step.
    - apply (reachable_initial
               (empty_world {[ "f" := image_small ]} [] GRUB_ERR_NONE)).
      split; reflexivity.
    - eapply (step_cmd false ["hd"; "f"]). vm_compute. reflexivity. }
  assert (Hin : "hd" ∈ names w)
    by (unfold names; simpl; apply elem_of_cons; left; reflexivity).
  split; [exact Hr|]. split; [exact Hin|].
  destruct (delete_registered_device 6 (2 ^ 64 - 1) "hd" [] w Hr Hin)
    as (l1 & dev & l2 & w' & Hc & Hl & _ & Hl' & _ & _ & Ho & _).
  exists w'. split; [exact Hc|].
  destruct l1 as [|d l1]; simpl in Hl.
  - injection Hl as <- <-. split; [exact Hl'|]. rewrite Ho.
    vm_compute. reflexivity.
  - injection Hl as _ Hl. destruct l1; discriminate.
Defined.

(** Adding a new name and deleting it again gives the list and the open
    files back as they were, with one open and one close request made on
    the way; the counter does not come back: it stays one higher
    (modulo [2^64]). *)
Theorem add_delete_round_trip (name path : string) (rest rest' : list string)
    (w w1 : world) :
  name ∉ names w ->
  grub_cmd_vhd false (name :: path :: rest) w = Returned GRUB_ERR_NONE w1 ->
  exists h w2,
    grub_cmd_vhd true (name :: rest') w1 = Returned GRUB_ERR_NONE w2
    /\ vhd_list w2 = vhd_list w
    /\ open_files w2 = open_files w
    /\ io_log w2 = io_log w ++ [EvOpen path h; EvClose h]
    /\ last_id w2 = (last_id w + 1) mod 2 ^ ULONG_BITS
    /\ grub_errno w2 = grub_errno w.
Proof.
  intros Hnew H. pose proof (fresh_handle_closed w) as Hc.
  destruct (storage w !! path) as [bytes|] eqn:Hst.
  2:{ rewrite grub_cmd_vhd_open_failed in H by done. discriminate. }
  rewrite (grub_cmd_vhd_create _ _ _ _ _ Hnew Hst) in H.
  destruct (_ && _); [|discriminate]. injection H as <-.
  set (h := fresh (dom (open_files w))) in *.
  eexists h, _. split.
  { rewrite grub_cmd_vhd_delete.
    apply (delete_vhd_found _ _ {| devname := name; file := h; id := last_id w |}).
    - cbn [vhd_list vhd_find devname].
      rewrite (proj2 (grub_strcmp_eq name name) eq_refl). reflexivity.
    - cbn [open_files file]. rewrite lookup_insert_eq. eauto. }
  cbn [vhd_list open_files io_log last_id grub_errno set_open_files log_io
       set_vhd_list vhd_unlink devname file].
  rewrite (proj2 (grub_strcmp_eq name name) eq_refl). cbn.
  rewrite delete_insert_id by exact Hc. rewrite <- app_assoc.
  repeat split.
Qed.

Lemma add_delete_round_trip_witness :
  let w := sample_world image_small GRUB_ERR_NONE in
  let w1 := world_of (grub_cmd_vhd false ["cd"; "f"] w) in
  exists h w2,
    grub_cmd_vhd true ["cd"] w1 = Returned GRUB_ERR_NONE w2
    /\ vhd_list w2 = [sample_dev]
    /\ io_log w2 = [EvOpen "f" 0; EvOpen "f" h; EvClose h]
    /\ last_id w2 = 2.
Proof.
  intros w w1.
  destruct (add_delete_round_trip "cd" "f" [] [] w w1)
    as (h & w2 & Hd & Hl & _ & Hlog & Hi & _).
  - unfold names. simpl. rewrite not_elem_of_cons. split; [discriminate|].
    apply not_elem_of_nil.
  - vm_compute. reflexivity.
  - exists h, w2. split; [exact Hd|]. split; [exact Hl|].
    split; [exact Hlog|]. rewrite Hi. reflexivity.
Defined.

(** When the file of an add request does not open, the command returns the
    error the file layer has put on record, before it looks at the list: a
    device already registered under that name keeps its record and its
    backing file, open with its cursor where it was. *)
Theorem add_open_failure (name path : string) (rest : list string) (w : world) :
  storage w !! path = None ->
  exists e w',
    grub_cmd_vhd false (name :: path :: rest) w = Returned e w'
    /\ e = grub_errno w'
    /\ e <> GRUB_ERR_NONE
    /\ vhd_list w' = vhd_list w
    /\ open_files w' = open_files w
    /\ last_id w' = last_id w
    /\ io_log w' = io_log w.
Proof.
  intros H. exists GRUB_ERR_FILE_NOT_FOUND, (set_errno GRUB_ERR_FILE_NOT_FOUND w).
  rewrite grub_cmd_vhd_open_failed by exact H. repeat split. discriminate.
Qed.

Lemma add_open_failure_witness :
  let w := sample_world image_small GRUB_ERR_NONE in
  exists e w',
    grub_cmd_vhd false ["hd"; "missing"] w = Returned e w'
    /\ e <> GRUB_ERR_NONE
    /\ vhd_list w' = [sample_dev]
    /\ open_files w' = open_files w.
Proof.
  intros w.
  destruct (add_open_failure "hd" "missing" [] w)
    as (e & w' & Hc & _ & He & Hl & Ho & _).
  - reflexivity.
  - exists e, w'. repeat split; assumption.
Defined.

(** ** Invariants of the registry *)

(** Whatever commands, opens, reads and writes have run since the module
    started, the devices of the list have distinct names and distinct
    backing files, each backing file is open, and the counter is within the
    range of [unsigned long]. *)
Theorem registry_invariant (w : world) :
  reachable w ->
  NoDup (names w)
  /\ NoDup (file <$> vhd_list w)
  /\ (forall dev, dev ∈ vhd_list w -> is_Some (open_files w !! file dev))
  /\ 0 <= last_id w < 2 ^ ULONG_BITS.
Proof.
  intros Hr. destruct (reachable_registry_ok _ Hr) as [H1 H2 H3 H4]. auto.
Qed.

Lemma registry_invariant_witness :
  let w := world_of (grub_cmd_vhd false ["cd"; "f"]
                       (sample_world image_small GRUB_ERR_NONE)) in
  names w = ["cd"; "hd"] /\ NoDup (names w) /\ NoDup (file <$> vhd_list w).
Proof.
  intros w. split; [vm_compute; reflexivity|].
  destruct (registry_invariant w) as (H1 & H2 & _).
  - eapply reachable_step; [eapply reachable_step|].
    + apply (reachable_initial
               (empty_world {[ "f" := image_small ]} [] GRUB_ERR_NONE)).
      split; reflexivity.
    + eapply (step_cmd false ["hd"; "f"]). vm_compute. reflexivity.
    + eapply (step_cmd false ["cd"; "f"]). vm_compute. reflexivity.
  - split; assumption.
Defined.

Lemma file_step_dom evs h w w' :
  file_step evs h w w' -> dom (open_files w') = dom (open_files w).
Proof.
  intros Hs. apply set_eq. intros k. rewrite !elem_of_dom.
  destruct (decide (k = h)) as [->|Hne].
  - pose proof (fs_data _ _ _ _ Hs) as Hd.
    destruct (open_files w' !! h), (open_files w !! h); try discriminate;
      split; intros [x Hx]; try discriminate; eauto.
  - rewrite (fs_others _ _ _ _ Hs) by done. reflexivity.
Qed.

Lemma unowned_step (w w' : world) :
  registry_ok w -> step w w' -> unowned w' = unowned w.
Proof.
  intros Hok Hstep. unfold unowned. destruct Hstep as
    [del args e w w' H | cache_bits size_unknown name r w w' H
    | disk s n buf hdr0 bp0 r w w' Hin Hl0 Hlb Hs H
    | disk s n buf e w w' H].
  - pose proof (ok_files _ Hok) as Hfd. pose proof (ok_open _ Hok) as Hop.
    destruct (grub_cmd_vhd_effect _ _ _ _ _ Hok H)
      as [El Eo _ _ | name h f Hnew Hh El Eo _ _
         | name h f old l1 l2 Hl Hn _ Hh El Eo _ _
         | name dev l1 l2 Hl Hn _ El Eo _ _].
    + rewrite El, Eo. reflexivity.
    + rewrite El, Eo, fmap_cons, list_to_set_cons, dom_insert_L. simpl.
      apply not_elem_of_dom in Hh. apply set_eq. intros k.
      rewrite !elem_of_difference, !elem_of_union, !elem_of_singleton.
      destruct (decide (k = h)) as [->|Ek]; tauto.
    + rewrite Hl in Hfd. apply NoDup_fmap_middle in Hfd as [Hnot _].
      rewrite fmap_app in Hnot. rewrite Hl, El, Eo.
      rewrite !fmap_app, !fmap_cons, !list_to_set_app_L, !list_to_set_cons,
        dom_delete_L, dom_insert_L. simpl.
      apply not_elem_of_dom in Hh.
      rewrite elem_of_app in Hnot.
      assert (Ho1 : file old ∉ (list_to_set (file <$> l1) : gset nat))
        by (rewrite elem_of_list_to_set; tauto).
      assert (Ho2 : file old ∉ (list_to_set (file <$> l2) : gset nat))
        by (rewrite elem_of_list_to_set; tauto).
      assert (Ho3 : file old ∈ dom (open_files w)).
      { apply elem_of_dom, Hop. rewrite Hl, elem_of_app, elem_of_cons. tauto. }
      apply set_eq. intros k.
      rewrite !elem_of_difference, !elem_of_union, ?elem_of_difference,
        ?elem_of_union, ?elem_of_singleton.
      destruct (decide (k = file old)) as [->|Ek];
        destruct (decide (file old = h)) as [Eh|Eh];
        try (rewrite Eh in *); try tauto;
        destruct (decide (k = h)) as [->|Ek']; tauto.
    + rewrite Hl in Hfd. apply NoDup_fmap_middle in Hfd as [Hnot _].
      rewrite fmap_app in Hnot. rewrite Hl, El, Eo.
      rewrite !fmap_app, !fmap_cons, !list_to_set_app_L, !list_to_set_cons,
        dom_delete_L.
      rewrite elem_of_app in Hnot.
      assert (Hd1 : file dev ∉ (list_to_set (file <$> l1) : gset nat))
        by (rewrite elem_of_list_to_set; tauto).
      assert (Hd2 : file dev ∉ (list_to_set (file <$> l2) : gset nat))
        by (rewrite elem_of_list_to_set; tauto).
      apply set_eq. intros k.
      rewrite !elem_of_difference, !elem_of_union, !elem_of_singleton.
      destruct (decide (k = file dev)) as [->|Ek]; tauto.
  - revert H. unfold grub_vhd_open, grub_error. run_world.
    destruct (vhd_find name (vhd_list w)); intros [= _ <-]; reflexivity.
  - destruct (grub_vhd_read_frame _ _ _ _ _ _ _ _ _
                (ok_open _ Hok _ Hin) Hl0 Hlb Hs H) as (evs & Hfs & _).
    rewrite (file_step_dom _ _ _ _ Hfs), (fs_vhd_list _ _ _ _ Hfs). reflexivity.
  - revert H. unfold grub_vhd_write, grub_error. run_world.
    intros [= _ <-]. reflexivity.
Qed.

Lemma reachable_rtc (w w' : world) :
  reachable w -> rtc step w w' -> reachable w'.
Proof.
  intros Hr Hs. induction Hs as [|w w1 w2 H1 _ IH]; [exact Hr|].
  apply IH. eapply reachable_step; eauto.
Qed.

(** The module neither leaks a file nor closes one it does not hold: over
    any sequence of commands, opens, reads and writes, the set of handles
    that are open without belonging to a device of the list stays the same.
    Every file the module has opened is either the backing file of a
    device or closed again, and no other open file is ever closed. *)
Theorem no_handle_leak (w w' : world) :
  reachable w -> rtc step w w' -> unowned w' = unowned w.
Proof.
  intros Hr Hs. induction Hs as [|w w1 w2 H1 _ IH]; [reflexivity|].
  rewrite IH by (eapply reachable_step; eauto).
  apply unowned_step; [apply reachable_registry_ok, Hr|exact H1].
Qed.

Lemma no_handle_leak_witness :
  let w0 := empty_world {[ "f" := image_small ]} [true; false] GRUB_ERR_NONE in
  let w1 := world_of (grub_cmd_vhd false ["hd"; "f"] w0) in
  let w2 := world_of (grub_cmd_vhd false ["hd"; "f"] w1) in
  let w3 := world_of (grub_cmd_vhd false ["hd"; "f"] w2) in
  let w4 := world_of (grub_cmd_vhd true ["hd"] w3) in
  grub_errno w1 = GRUB_ERR_OUT_OF_MEMORY
  /\ names w3 = ["hd"]
  /\ unowned w4 = ∅
  /\ open_files w4 = ∅.
Proof.
  intros w0 w1 w2 w3 w4. split; [vm_compute; reflexivity|].
  split; [vm_compute; reflexivity|].
  assert (Hu : unowned w4 = unowned w0).
  { apply no_handle_leak.
    - apply reachable_initial. split; reflexivity.
    - eapply rtc_l; [eapply (step_cmd false ["hd"; "f"]); vm_compute; reflexivity|].
      eapply rtc_l; [eapply (step_cmd false ["hd"; "f"]); vm_compute; reflexivity|].
      eapply rtc_l; [eapply (step_cmd false ["hd"; "f"]); vm_compute; reflexivity|].
      eapply rtc_l; [eapply (step_cmd true ["hd"]); vm_compute; reflexivity|].
      apply rtc_refl. }
  split; [rewrite Hu; vm_compute; reflexivity|].
  vm_compute. reflexivity.
Defined.

(** A command never renames or renumbers a device and never reorders the
    list. After any [vhd] command that returns in a reachable state, the
    names of the list are the names before, or those with one new name in
    front, or those with one name taken out; and every device of the list
    before is either gone by name or still there under the same name with
    the same identity. *)
Theorem command_keeps_devices (del : bool) (args : list string)
    (w w' : world) (e : grub_err_t) :
  reachable w ->
  grub_cmd_vhd del args w = Returned e w' ->
  (names w' = names w
   \/ (exists name, (name ∉ names w) /\ names w' = name :: names w)
   \/ (exists n1 name n2, names w = n1 ++ name :: n2 /\ names w' = n1 ++ n2
                          /\ (name ∉ names w')))
  /\ forall dev, dev ∈ vhd_list w ->
       (devname dev ∉ names w')
       \/ exists dev', dev' ∈ vhd_list w'
                       /\ devname dev' = devname dev /\ id dev' = id dev.
Proof.
  intros Hr H. pose proof (reachable_registry_ok _ Hr) as Hok.
  pose proof (ok_names _ Hok) as Hnd. unfold names.
  destruct (grub_cmd_vhd_effect _ _ _ _ _ Hok H)
    as [El _ _ _ | name h f Hnew _ El _ _ _
       | name h f old l1 l2 Hl Hn _ _ El _ _ _
       | name dev0 l1 l2 Hl Hn _ El _ _ _].
  - rewrite El. split; [tauto|]. eauto.
  - rewrite El. split.
    + right. left. exists name. split; [exact Hnew|reflexivity].
    + intros dev Hd. right. exists dev. rewrite elem_of_cons. tauto.
  - rewrite Hl, El. split.
    + left. rewrite !fmap_app, !fmap_cons. simpl. rewrite Hn. reflexivity.
    + intros dev Hd. right. rewrite elem_of_app, elem_of_cons in Hd.
      destruct Hd as [Hd|[->|Hd]].
      * exists dev. rewrite elem_of_app. tauto.
      * eexists. rewrite elem_of_app, elem_of_cons.
        split; [right; left; reflexivity|]. simpl. split; [congruence|reflexivity].
      * exists dev. rewrite elem_of_app, elem_of_cons. tauto.
  - rewrite Hl in Hnd. apply NoDup_fmap_middle in Hnd as [Hnot _].
    rewrite Hl, El. split.
    + right. right. exists (devname <$> l1), name, (devname <$> l2).
      rewrite !fmap_app, fmap_cons, Hn. split; [reflexivity|].
      split; [reflexivity|]. rewrite <- fmap_app, <- Hn. exact Hnot.
    + intros dev Hd. rewrite elem_of_app, elem_of_cons in Hd.
      destruct Hd as [Hd|[->|Hd]].
      * right. exists dev. rewrite elem_of_app. tauto.
      * left. exact Hnot.
      * right. exists dev. rewrite elem_of_app. tauto.
Qed.

Lemma command_keeps_devices_witness :
  let w := world_of (grub_cmd_vhd false ["cd"; "f"]
                       (sample_world image_small GRUB_ERR_NONE)) in
  let w' := world_of (grub_cmd_vhd false ["hd"; "f"] w) in
  names w = ["cd"; "hd"]
  /\ names w' = ["cd"; "hd"]
  /\ forall dev, dev ∈ vhd_list w ->
       (devname dev ∉ names w')
       \/ exists dev', dev' ∈ vhd_list w'
                       /\ devname dev' = devname dev /\ id dev' = id dev.
Proof.
  intros w w'. split; [vm_compute; reflexivity|].
  split; [vm_compute; reflexivity|].
  apply (command_keeps_devices false ["hd"; "f"] w w' GRUB_ERR_NONE).
  - eapply reachable_step; [eapply reachable_step|].
    + apply (reachable_initial
               (empty_world {[ "f" := image_small ]} [] GRUB_ERR_NONE)).
      split; reflexivity.
    + eapply (step_cmd false ["hd"; "f"]). vm_compute. reflexivity.
    + eapply (step_cmd false ["cd"; "f"]). vm_compute. reflexivity.
  - vm_compute. reflexivity.
Defined.

(** ** Enumeration *)

Lemma iterate_from_logged {D} (hook : string -> D -> Z * D)
    (l : list grub_vhd) : forall (d : D) (log : list (hook_call D)),
  exists r d' calls,
    iterate_from (logging_hook hook) l (d, log) = (r, (d', log ++ calls))
    /\ iterate_from hook l d = (r, d')
    /\ call_name <$> calls = take (length calls) (devname <$> l)
    /\ (forall k c, calls !! k = Some c ->
          call_ret c = fst (hook (call_name c) (call_data c))
          /\ ((S k < length calls)%nat -> call_ret c = 0))
    /\ (forall c, calls !! 0%nat = Some c -> call_data c = d)
    /\ (forall k c c', calls !! k = Some c -> calls !! S k = Some c' ->
          call_data c' = snd (hook (call_name c) (call_data c)))
    /\ d' = match last calls with
            | Some c => snd (hook (call_name c) (call_data c))
            | None => d
            end
    /\ (r = 0 /\ length calls = length l
               /\ (forall c, c ∈ calls -> call_ret c = 0)
        \/ r = 1 /\ exists c, last calls = Some c /\ call_ret c <> 0).
Proof.
  induction l as [|dev l IH]; intros d log.
  - exists 0, d, []. cbn. rewrite app_nil_r.
    split; [reflexivity|]. split; [reflexivity|]. split; [reflexivity|].
    split; [intros k c H; destruct k; discriminate H|].
    split; [intros c H; discriminate H|].
    split; [intros k c c' H; destruct k; discriminate H|].
    split; [reflexivity|]. left. split; [reflexivity|]. split; [reflexivity|].
    intros c H. apply elem_of_nil in H. destruct H.
  - cbn [iterate_from]. unfold logging_hook at 1. cbn [fst snd].
    destruct (hook (devname dev) d) as [r1 d1] eqn:Hh.
    set (c0 := {| call_name := devname dev; call_data := d; call_ret := r1 |}).
    assert (Hc0 : hook (call_name c0) (call_data c0) = (r1, d1)) by exact Hh.
    destruct (Z.eqb_spec r1 0) as [Hz|Hnz].
    + destruct (IH d1 (log ++ [c0]))
        as (r & d' & calls & H1 & H2 & H3 & H4 & H5 & H6 & H7 & H8).
      exists r, d', (c0 :: calls). rewrite H1, <- app_assoc.
      split; [reflexivity|]. split; [exact H2|]. split.
      { cbn. f_equal. exact H3. }
      split.
      { intros [|k] c Hk; cbn in Hk.
        - injection Hk as <-. rewrite Hc0. cbn. split; [reflexivity|].
          intros _. exact Hz.
        - destruct (H4 k c Hk) as [Ha Hb]. split; [exact Ha|].
          intros Hlt. apply Hb. cbn in Hlt. lia. }
      split.
      { intros c Hk. cbn in Hk. injection Hk as <-. reflexivity. }
      split.
      { intros [|k] c c' Hk Hk'; cbn in Hk, Hk'.
        - injection Hk as <-. rewrite Hc0. cbn. apply H5, Hk'.
        - apply (H6 k c c' Hk Hk'). }
      split.
      { destruct calls as [|c1 calls'].
        - cbn in H7 |- *. rewrite Hh. cbn. exact H7.
        - rewrite last_cons_cons, H7.
          destruct (last (c1 :: calls')) eqn:E; [reflexivity|].
          apply last_None in E. discriminate E. }
      destruct H8 as [(Hr & Hlen & Hall)|(Hr & c & Hlast & Hret)].
      * left. split; [exact Hr|]. split; [cbn; rewrite Hlen; reflexivity|].
        intros c Hc. apply elem_of_cons in Hc. destruct Hc as [->|Hc].
        -- exact Hz.
        -- apply Hall, Hc.
      * right. split; [exact Hr|]. exists c. split; [|exact Hret].
        destruct calls as [|c1 calls']; [discriminate Hlast|].
        rewrite last_cons_cons. exact Hlast.
    + exists 1, d1, [c0].
      split; [reflexivity|]. split; [reflexivity|]. split; [reflexivity|].
      split.
      { intros [|k] c Hk; cbn in Hk; [|destruct k; discriminate Hk].
        injection Hk as <-. rewrite Hc0. cbn. split; [reflexivity|].
        intros Hlt. cbn in Hlt. lia. }
      split.
      { intros c Hk. cbn in Hk. injection Hk as <-. reflexivity. }
      split.
      { intros [|k] c c' Hk Hk'; cbn in Hk'; [discriminate Hk'|].
        destruct k; discriminate Hk'. }
      split; [cbn; rewrite Hh; reflexivity|].
      right. split; [reflexivity|]. exists c0. split; [reflexivity|exact Hnz].
Qed.

(** [grub_vhd_iterate] with any hook, whatever its state; the calls of the
    hook are noted by [logging_hook]. In the pull mode
    [GRUB_DISK_PULL_NONE] the hook is called on the names of the list in
    list order, each device once: the names of the calls are an initial
    part of the names of the list. The first call is given the caller's
    hook data and each later call what the call before left; the result's
    hook data is what the last call left. Every call but the last returned
    0. The result is 0 exactly when every device was visited and every
    call returned 0; otherwise it is 1 and the last call made, the one the
    enumeration stopped at, returned nonzero. In every other pull mode no
    call is made and the result is 0. Noting the calls does not change the
    result, and the world is never changed. *)
Theorem iterate_visits_in_order {D} (hook : string -> D -> Z * D)
    (hook_data : D) (pull : grub_disk_pull_t) (w : world) :
  exists r d' calls,
    grub_vhd_iterate (logging_hook hook) (hook_data, []) pull w
      = Returned (r, (d', calls)) w
    /\ grub_vhd_iterate hook hook_data pull w = Returned (r, d') w
    /\ (pull <> GRUB_DISK_PULL_NONE -> r = 0 /\ d' = hook_data /\ calls = [])
    /\ (pull = GRUB_DISK_PULL_NONE ->
        call_name <$> calls = take (length calls) (names w)
        /\ (forall k c, calls !! k = Some c ->
              call_ret c = fst (hook (call_name c) (call_data c))
              /\ ((S k < length calls)%nat -> call_ret c = 0))
        /\ (forall c, calls !! 0%nat = Some c -> call_data c = hook_data)
        /\ (forall k c c', calls !! k = Some c -> calls !! S k = Some c' ->
              call_data c' = snd (hook (call_name c) (call_data c)))
        /\ d' = match last calls with
                | Some c => snd (hook (call_name c) (call_data c))
                | None => hook_data
                end
        /\ (r = 0 /\ length calls = length (vhd_list w)
                   /\ (forall c, c ∈ calls -> call_ret c = 0)
            \/ r = 1 /\ exists c, last calls = Some c /\ call_ret c <> 0)).
Proof.
  unfold grub_vhd_iterate.
  destruct (decide (pull <> GRUB_DISK_PULL_NONE)) as [Hp|Hp].
  - exists 0, hook_data, []. split; [reflexivity|]. split; [reflexivity|].
    split; [auto|]. intros E. contradiction.
  - apply dec_stable in Hp.
    destruct (iterate_from_logged hook (vhd_list w) hook_data [])
      as (r & d' & calls & H1 & H2 & H3).
    exists r, d', calls. run_world. rewrite H1, H2.
    split; [reflexivity|]. split; [reflexivity|].
    split; [intros Hn; contradiction|]. intros _. exact H3.
Qed.

(** ** Reading *)

(** A read changes no data. Whether [grub_vhd_read] returns or stops on
    the division, in the world it leaves the device list, the counter and
    the stored files are as before, the device's backing file is still
    open with the same contents (only its cursor may have moved), and
    every other open file is exactly as it was. *)
Theorem read_changes_no_data disk s n buf hdr0 bp0 w f :
  let h := file (data disk) in
  open_files w !! h = Some f ->
  length hdr0 = 1024%nat -> length bp0 = 4%nat -> 0 <= s ->
  let w' := world_of (grub_vhd_read disk s n buf hdr0 bp0 w) in
  vhd_list w' = vhd_list w
  /\ last_id w' = last_id w
  /\ storage w' = storage w
  /\ (exists f', open_files w' !! h = Some f' /\ f_data f' = f_data f)
  /\ (forall h', h' <> h -> open_files w' !! h' = open_files w !! h').
Proof.
  intros h Hf Hl0 Hlb Hs.
  destruct (seek_read_open h 512 hdr0 1024 w f Hf) as (got & w1 & Hh & _).
  destruct (grub_vhd_read_run disk s n buf hdr0 bp0 w _ w1 Hh Hl0 Hlb Hs)
    as (_ & Hs1 & Hz & Hnz).
  assert (Hfs : exists evs, file_step evs h w
                  (world_of (grub_vhd_read disk s n buf hdr0 bp0 w))).
  { destruct (decide (blockSize (overwrite hdr0 got) / 512 = 0)) as [E|E].
    - rewrite (Hz E). eexists. exact Hs1.
    - destruct (Hnz E) as (bpm & w2 & e & buf' & w3 & _ & _ & Hs2 & Hr & _ & Hs3).
      rewrite Hr. eexists.
      exact (file_step_trans _ _ _ _ _ _
               (file_step_trans _ _ _ _ _ _ Hs1 Hs2) Hs3). }
  destruct Hfs as [evs Hfs]. cbv zeta.
  split; [apply (fs_vhd_list _ _ _ _ Hfs)|].
  split; [apply (fs_last_id _ _ _ _ Hfs)|].
  split; [apply (fs_storage _ _ _ _ Hfs)|].
  split; [apply (file_step_lookup _ _ _ _ _ Hfs Hf)|].
  apply (fs_others _ _ _ _ Hfs).
Qed.

Lemma read_changes_no_data_witness :
  let w := sample_world image_small GRUB_ERR_NONE in
  let w' := world_of (grub_vhd_read sample_disk 1 1 (zeros 512) (zeros 1024)
                        (zeros 4) w) in
  vhd_list w' = [sample_dev]
  /\ exists f', open_files w' !! 0%nat = Some f' /\ f_data f' = image_small.
Proof.
  intros w w'.
  destruct (read_changes_no_data sample_disk 1 1 (zeros 512) (zeros 1024)
              (zeros 4) w {| f_data := image_small; f_offset := 0 |})
    as (Hl & _ & _ & Hf & _).
  - reflexivity.
  - reflexivity.
  - reflexivity.
  - lia.
  - split; [exact Hl|exact Hf].
Defined.

(** The code the read returns is [grub_errno] as it stands after the last
    request, and [grub_errno] is never cleared on the way: a read entered
    with an error already on record returns an error, whatever the file
    holds. *)
Theorem read_reports_stale_error disk s n buf hdr0 bp0 w f e buf' w' :
  open_files w !! file (data disk) = Some f ->
  length hdr0 = 1024%nat -> length bp0 = 4%nat -> 0 <= s ->
  grub_vhd_read disk s n buf hdr0 bp0 w = Returned (e, buf') w' ->
  e = grub_errno w'
  /\ (grub_errno w <> GRUB_ERR_NONE -> e <> GRUB_ERR_NONE).
Proof.
  intros Hf Hl0 Hlb Hs H.
  destruct (seek_read_open _ 512 hdr0 1024 w f Hf) as (got & w1 & Hh & _).
  destruct (grub_vhd_read_run disk s n buf hdr0 bp0 w _ w1 Hh Hl0 Hlb Hs)
    as (_ & Hs1 & Hz & Hnz).
  destruct (decide (blockSize (overwrite hdr0 got) / 512 = 0)) as [E|E].
  { rewrite (Hz E) in H. discriminate. }
  destruct (Hnz E) as (bpm & w2 & e0 & buf0 & w3 & _ & _ & Hs2 & Hr & He & Hs3).
  rewrite Hr in H. injection H as <- <- <-.
  split; [exact He|]. intros Hw. rewrite He.
  apply (fs_errno _ _ _ _ Hs3), (fs_errno _ _ _ _ Hs2), (fs_errno _ _ _ _ Hs1), Hw.
Qed.

Lemma read_reports_stale_error_witness :
  let w := set_errno GRUB_ERR_BAD_DEVICE (sample_world image_small GRUB_ERR_NONE) in
  exists buf' w',
    grub_vhd_read sample_disk 1 1 (zeros 512) (zeros 1024) (zeros 4) w
      = Returned (GRUB_ERR_BAD_DEVICE, buf') w'
    /\ (grub_errno w <> GRUB_ERR_NONE -> GRUB_ERR_BAD_DEVICE <> GRUB_ERR_NONE).
Proof.
  intros w.
  eexists _, _. split; [vm_compute; reflexivity|].
  eapply (read_reports_stale_error sample_disk 1 1 (zeros 512) (zeros 1024)
            (zeros 4) w {| f_data := image_small; f_offset := 0 |}).
  - reflexivity.
  - reflexivity.
  - reflexivity.
  - lia.
  - vm_compute. reflexivity.
Defined.

Lemma field_field (a n b m : nat) (l : list byte) :
  (a + n <= m)%nat -> field a n (field b m l) = field (b + a) n l.
Proof.
  intros H. unfold field.
  rewrite skipn_firstn_comm, take_take, drop_drop. f_equal. lia.
Qed.

(** The round trip through an image. On a file that holds the header, the
    BAT entry of the block and the sectors asked for, with a block size of
    at least 512 and an allocated block, a read of [n] sectors at sector
    [s] entered with no error on record returns success and fills the
    caller's buffer with the [n * 512] bytes the file holds from byte
    [(BAT[s / density] + 1 + s mod density) * 512] on, where [density] is
    the big-endian block size at byte 544 divided by 512 and [BAT[i]] the
    big-endian 32-bit entry at the big-endian BAT offset (byte 528) plus
    [4 * i]. *)
Theorem read_round_trip disk s n buf hdr0 bp0 w f :
  let h := file (data disk) in
  let bytes := f_data f in
  open_files w !! h = Some f ->
  grub_errno w = GRUB_ERR_NONE ->
  length hdr0 = 1024%nat -> length bp0 = 4%nat ->
  length buf = Z.to_nat (n * 512) ->
  0 <= s -> 0 <= n ->
  1536 <= f_size f < 2 ^ 64 ->
  let density := be_decode (field 544 4 bytes) / 512 in
  density <> 0 ->
  let batpos := be_decode (field 528 8 bytes) + s / density * 4 in
  batpos + 4 <= f_size f ->
  let entry := be_decode (field (Z.to_nat batpos) 4 bytes) in
  entry <> 0xFFFFFFFF ->
  let off := (entry + 1 + s mod density) * 512 in
  off + n * 512 <= f_size f ->
  exists w',
    grub_vhd_read disk s n buf hdr0 bp0 w
      = Returned (GRUB_ERR_NONE,
                  field (Z.to_nat off) (Z.to_nat (n * 512)) bytes) w'.
Proof.
  intros h bytes Hf He Hl0 Hlb Hbuf Hs Hn Hsz density Hnz batpos Hbat entry
    Hent off Hoff.
  subst bytes. set (bytes := f_data f) in *.
  assert (Hby : bytes = f_data f) by reflexivity. clearbody bytes.
  assert (Hdl : (1536 <= length bytes)%nat) by (unfold f_size in Hsz; rewrite Hby; lia).
  (* the header *)
  destruct (seek_read_exact h 512 hdr0 1024 w f Hf)
    as (w1 & Hh & He1 & Hs1); try lia.
  change (Z.to_nat 512) with 512%nat in Hh.
  change (Z.to_nat 1024) with 1024%nat in Hh. rewrite <- Hby in Hh.
  set (hdr := field 512 1024 bytes) in *.
  assert (Hbsz : blockSize hdr = be_decode (field 544 4 bytes)).
  { unfold blockSize, hdr. rewrite field_field by lia. reflexivity. }
  assert (Hbo : batOffset hdr = be_decode (field 528 8 bytes)).
  { unfold batOffset, hdr. rewrite field_field by lia. reflexivity. }
  assert (Hd : blockSize hdr / 512 = density) by (rewrite Hbsz; reflexivity).
  assert (Hdpos : 0 < density).
  { pose proof (blockSize_range hdr) as Hr. rewrite <- Hd in *.
    pose proof (Z.div_pos (blockSize hdr) 512). lia. }
  assert (Hbp0 : 0 <= batpos).
  { subst batpos. pose proof (be_decode_range (field 528 8 bytes)).
    pose proof (Z.div_pos s density). nia. }
  (* the BAT entry *)
  destruct (file_step_lookup _ _ _ _ _ Hs1 Hf) as (f1 & Hf1 & Hd1).
  destruct (seek_read_exact h batpos bp0 4 w1 f1 Hf1)
    as (w2 & Hb & He2 & Hs2); try lia.
  { unfold f_size in *. rewrite Hd1. exact Hbat. }
  rewrite Hd1 in Hb. change (Z.to_nat 4) with 4%nat in Hb. rewrite <- Hby in Hb.
  set (bpm := field (Z.to_nat batpos) 4 bytes) in *.
  assert (Hbl : length bpm = 4%nat).
  { subst bpm. apply length_field. unfold f_size in *. rewrite <- Hby in *. lia. }
  assert (Hbpv : blockPointer bpm = entry).
  { unfold blockPointer, field. rewrite drop_0, take_ge by lia. reflexivity. }
  assert (Hentr : 0 <= entry < 2 ^ 32).
  { rewrite <- Hbpv. unfold blockPointer.
    pose proof (be_decode_range (field 0 4 bpm)) as H4.
    rewrite length_field in H4 by lia. exact H4. }
  pose proof (Z.mod_pos_bound s density Hdpos) as Hm.
  (* the data *)
  destruct (file_step_lookup _ _ _ _ _ Hs2 Hf1) as (f2 & Hf2 & Hd2).
  assert (Hoff0 : 0 <= off) by (unfold off; lia).
  assert (Hoff' : off + n * 512 <= f_size f2)
    by (unfold f_size in *; rewrite Hd2, Hd1; exact Hoff).
  destruct (seek_read_exact h off buf (n * 512) w2 f2 Hf2 Hoff0 ltac:(lia)
              Hoff' Hbuf) as (w3 & Hfin & He3 & _).
  rewrite Hd2, Hd1, <- Hby in Hfin.
  exists w3.
  rewrite <- He, <- He1, <- He2, <- He3.
  apply (grub_vhd_read_steps disk s n buf hdr0 bp0 w hdr w1 bpm w2).
  - exact Hh.
  - exact Hl0.
  - exact Hlb.
  - exact Hs.
  - rewrite Hd. exact Hnz.
  - rewrite Hd, Hbo. fold batpos. rewrite Z.mod_small by lia. exact Hb.
  - rewrite Hd, Hbpv, (Z.mod_small (entry + 1)) by lia. fold off.
    rewrite Z.mod_small; [exact Hfin|]. unfold f_size in *. lia.
Qed.

Lemma read_round_trip_witness :
  let w := sample_world image_small GRUB_ERR_NONE in
  be_decode (field 544 4 image_small) / 512 = 2
  /\ be_decode (field 1544 4 image_small) = 9
  /\ exists w',
       grub_vhd_read sample_disk 4 1 (zeros 512) (zeros 1024) (zeros 4) w
         = Returned (GRUB_ERR_NONE, field ((9 + 1 + 0) * 512) 512 image_small) w'.
Proof.
  intros w. split; [vm_compute; reflexivity|]. split; [vm_compute; reflexivity|].
  destruct (read_round_trip sample_disk 4 1 (zeros 512) (zeros 1024) (zeros 4)
              w {| f_data := image_small; f_offset := 0 |}) as [w' Hr].
  - reflexivity.
  - reflexivity.
  - reflexivity.
  - reflexivity.
  - reflexivity.
  - lia.
  - lia.
  - vm_compute. split; [intros H; discriminate H|reflexivity].
  - vm_compute. intros H. discriminate H.
  - vm_compute. intros H. discriminate H.
  - vm_compute. intros H. discriminate H.
  - vm_compute. intros H. discriminate H.
  - exists w'. exact Hr.
Defined.

(** The read path checks neither the sector against the size of the disk
    nor the BAT entry against the size of the file; what stands in for the
    check is the file layer. When the byte offset the translation arrives
    at lies past the end of the backing file, the seek to it is refused,
    the read is made all the same, wherever the cursor was left, and the
    call returns an error. *)
Theorem read_past_end_is_error disk s n buf hdr0 bp0 w hdr w1 bpm w2 f2 :
  let h := file (data disk) in
  let density := blockSize hdr / 512 in
  header_read h hdr0 w = Returned hdr w1 ->
  length hdr0 = 1024%nat -> length bp0 = 4%nat -> 0 <= s ->
  density <> 0 ->
  bat_entry_read h ((batOffset hdr + s / density * 4) mod 2 ^ 64) bp0 w1
    = Returned bpm w2 ->
  open_files w2 !! h = Some f2 ->
  f_size f2 < ((blockPointer bpm + 1) mod 2 ^ 32 + s mod density) * 512 ->
  exists e buf' w',
    grub_vhd_read disk s n buf hdr0 bp0 w = Returned (e, buf') w'
    /\ e <> GRUB_ERR_NONE
    /\ io_log w' =
         io_log w2 ++
           [EvSeek h (((blockPointer bpm + 1) mod 2 ^ 32 + s mod density) * 512);
            EvRead h (n * 512 mod 2 ^ 64)].
Proof.
  intros h density Hh Hl0 Hlb Hs Hnz Hbat Hf2 Hpast.
  set (off := ((blockPointer bpm + 1) mod 2 ^ 32 + s mod density) * 512) in *.
  destruct (grub_file_seek_open h off w2 f2 Hf2) as (wa & Hseek & Hs1 & Hout & _).
  destruct (Hout Hpast) as [Hea Hfa].
  assert (Hf2a : open_files wa !! h = Some f2) by (rewrite Hfa; exact Hf2).
  destruct (grub_file_read_open h buf (n * 512 mod 2 ^ 64) wa f2 Hf2a)
    as (got & wb & Hread & Hs2 & _).
  assert (Hfin : (run grub_file_seek h off;
                  grub_file_read h buf (n * 512 mod 2 ^ 64)) w2
                 = Returned (overwrite buf got) wb)
    by (rewrite (bind_Returned _ _ _ _ _ Hseek); exact Hread).
  exists (grub_errno wb), (overwrite buf got), wb.
  split.
  { apply (grub_vhd_read_steps disk s n buf hdr0 bp0 w hdr w1 bpm w2); assumption. }
  split.
  { apply (fs_errno _ _ _ _ Hs2). rewrite Hea. discriminate. }
  rewrite (fs_log _ _ _ _ Hs2), (fs_log _ _ _ _ Hs1), <- app_assoc. reflexivity.
Qed.

Lemma read_past_end_is_error_witness :
  let w := sample_world image_dangling GRUB_ERR_NONE in
  blockPointer (field 1536 4 image_dangling) = 100
  /\ Z.of_nat (length image_dangling) = 2564
  /\ exists e buf' w',
       grub_vhd_read sample_disk 0 1 (zeros 512) (zeros 1024) (zeros 4) w
         = Returned (e, buf') w'
       /\ e <> GRUB_ERR_NONE
       /\ io_log w' =
            [EvOpen "f" 0; EvSeek 0 512; EvRead 0 1024; EvSeek 0 1536;
             EvRead 0 4; EvSeek 0 51712; EvRead 0 512].
Proof.
  intros w. split; [vm_compute; reflexivity|]. split; [vm_compute; reflexivity|].
  destruct (read_past_end_is_error sample_disk 0 1 (zeros 512) (zeros 1024)
              (zeros 4) w (field 512 1024 image_dangling)
              (sample_world_after image_dangling GRUB_ERR_NONE GRUB_ERR_NONE 1536
                 [EvSeek 0 512; EvRead 0 1024])
              (field 1536 4 image_dangling)
              (sample_world_after image_dangling GRUB_ERR_NONE GRUB_ERR_NONE 1540
                 [EvSeek 0 512; EvRead 0 1024; EvSeek 0 1536; EvRead 0 4])
              {| f_data := image_dangling; f_offset := 1540 |})
    as (e & buf' & w' & Hr & He & Hlog).
  - vm_compute. reflexivity.
  - reflexivity.
  - reflexivity.
  - lia.
  - vm_compute. discriminate.
  - vm_compute. reflexivity.
  - reflexivity.
  - vm_compute. reflexivity.
  - exists e, buf', w'. split; [exact Hr|]. split; [exact He|].
    rewrite Hlog. vm_compute. reflexivity.
Defined.
